(** * hup.io.plain: text-file helpers over file connectors

    A shallow embedding of [src/hup/io/plain.py] and [src/hup/io/abc.py].

    - Python [str] values are Rocq [string]s, read as sequences of code
      points below 256; [int] is [Z]; [List[str]] is [list string].
    - Exceptions and the mutable outside world (file system, stream
      objects) are threaded through a small state-and-error monad.
    - The connector and stream operations that [plain.py] calls but does
      not define are collected in the interface [FileIO]; [openx], [load],
      [save], [get_comment] and [get_content] are written once against it.
    - [hup.io.FileConnector] is not part of the sources at hand; a model of
      it over an explicit file system is given in [Module DiskModel]. *)

From stdpp Require Import base option list gmap strings.
From Stdlib Require Import ZArith Ascii String Lia.

Local Open Scope string_scope.
Local Open Scope list_scope.
Local Open Scope Z_scope.

(* stdpp blocks the unfolding of string concatenation; the strings of this
   file are computed with. *)
#[local] Arguments String.append !s1 s2 : simpl nomatch.

(** ** Python string primitives *)

Definition LF : ascii := "010"%char.
Definition CR : ascii := "013"%char.
Definition HASH : ascii := "#"%char.

(** [s + '\n'] *)
Definition ln (s : string) : string := s +:+ String LF "".

(** [str.isspace] on one code point below 256: TAB..CR, FS..US, SPACE,
    NEL (0x85) and NBSP (0xA0). *)
Definition py_isspace (c : ascii) : bool :=
  let n := N_of_ascii c in
  (((9 <=? n) && (n <=? 13)) || ((28 <=? n) && (n <=? 32))
   || (n =? 133) || (n =? 160))%N.

(** [c in chars] for a one-character [c]. *)
Fixpoint char_in (c : ascii) (chars : string) : bool :=
  match chars with
  | EmptyString => false
  | String d r => Ascii.eqb c d || char_in c r
  end.

(** [not s] for a string: true exactly on the empty string. *)
Definition str_falsy (s : string) : bool :=
  match s with EmptyString => true | String _ _ => false end.

(** Strip from the left every character satisfying [p]. *)
Fixpoint lstrip_by (p : ascii -> bool) (s : string) : string :=
  match s with
  | EmptyString => EmptyString
  | String c r => if p c then lstrip_by p r else s
  end.

(** Strip from the right every character satisfying [p]. *)
Fixpoint rstrip_by (p : ascii -> bool) (s : string) : string :=
  match s with
  | EmptyString => EmptyString
  | String c r =>
      match rstrip_by p r with
      | EmptyString => if p c then EmptyString else String c EmptyString
      | String _ _ as r' => String c r'
      end
  end.

(** [s.lstrip()], [s.rstrip()], [s.strip()], [s.rstrip(chars)] *)
Definition str_lstrip : string -> string := lstrip_by py_isspace.
Definition str_rstrip : string -> string := rstrip_by py_isspace.
Definition str_strip (s : string) : string := str_rstrip (str_lstrip s).
Definition str_rstrip_chars (chars : string) : string -> string :=
  rstrip_by (fun c => char_in c chars).

(** [s.startswith('#')] *)
Definition startswith_hash (s : string) : bool :=
  match s with
  | String c _ => Ascii.eqb c HASH
  | EmptyString => false
  end.

(** [s[1:]] *)
Definition slice_from_1 (s : string) : string :=
  match s with
  | String _ r => r
  | EmptyString => EmptyString
  end.

(** [''.join(parts)] *)
Fixpoint str_join (parts : list string) : string :=
  match parts with
  | [] => EmptyString
  | p :: ps => p +:+ str_join ps
  end.

(** [len(xs)] as a Python [int]. *)
Definition py_len {A} (xs : list A) : Z := Z.of_nat (List.length xs).

(** ** [for line in fh: ...] with [continue] and [break] *)

Inductive ctl (St : Type) : Type :=
  | Continue (s : St)
  | Break (s : St).
Arguments Continue {St} s.
Arguments Break {St} s.

(** Runs [body] over the lines an iterator yields.  Returns the final loop
    state and the number of lines fetched from the iterator (the line on
    which [break] fired has been fetched). *)
Fixpoint for_each {St : Type} (body : string -> St -> ctl St)
    (lines : list string) (s : St) : St * nat :=
  match lines with
  | [] => (s, 0%nat)
  | line :: rest =>
      match body line s with
      | Continue s' => let '(r, k) := for_each body rest s' in (r, S k)
      | Break s' => (s', 1%nat)
      end
  end.

(** Body of the loop of [get_comment] (plain.py, lines 135-141). *)
Definition get_comment_body (line : string) (lines : list string)
    : ctl (list string) :=
  let lstrip := str_lstrip line in
  if str_falsy (str_rstrip lstrip) then Continue lines
  else if negb (startswith_hash lstrip) then Break lines
  else Continue (lines ++ [str_lstrip (slice_from_1 lstrip)]).

(** What [get_comment] returns once the stream has yielded [fh]:
    [''.join(lines).rstrip()] (plain.py, line 142). *)
Definition get_comment_of (fh : list string) : string :=
  str_rstrip (str_join (fst (for_each get_comment_body fh []))).

(** Body of the loop of [get_content] (plain.py, lines 162-168); [lines] is
    the limit argument. *)
Definition get_content_body (lines : Z) (line : string)
    (content : list string) : ctl (list string) :=
  if negb (lines =? 0) && (py_len content >=? lines) then Break content
  else
    let strip := str_strip line in
    if str_falsy strip || startswith_hash strip then Continue content
    else Continue (content ++ [str_rstrip_chars (String CR (String LF "")) line]).

(** What [get_content] returns once the stream has yielded [fh]. *)
Definition get_content_of (fh : list string) (lines : Z) : list string :=
  fst (for_each (get_content_body lines) fh []).

(** ** Exceptions and the state-and-error monad *)

Inductive exn : Type :=
  | ResolutionError
  | OSError
  | ValueError (msg : string)
  | OtherError (name : string).

Inductive result (A : Type) : Type :=
  | Ok (a : A)
  | Raise (e : exn).
Arguments Ok {A} a.
Arguments Raise {A} e.

(** A computation over a mutable state [St]: it returns a value or raises,
    and in both cases leaves a new state behind. *)
Definition M (St A : Type) : Type := St -> result A * St.

Definition ret {St A} (a : A) : M St A := fun s => (Ok a, s).

Definition raise {St A} (e : exn) : M St A := fun s => (Raise e, s).

Definition bind {St A B} (m : M St A) (k : A -> M St B) : M St B :=
  fun s =>
    match m s with
    | (Ok a, s') => k a s'
    | (Raise e, s') => (Raise e, s')
    end.

(** [try: m  finally: fin].  The clean-up runs on every exit of [m]; an
    exception of the clean-up replaces the outcome of [m]. *)
Definition try_finally {St A} (m : M St A) (fin : M St unit) : M St A :=
  fun s =>
    let '(r, s1) := m s in
    match fin s1 with
    | (Ok _, s2) => (r, s2)
    | (Raise e, s2) => (Raise e, s2)
    end.

Declare Scope io_scope.
Delimit Scope io_scope with io.
Notation "x <- m ;; k" := (bind m (fun x => k))
  (at level 100, m at next level, right associativity) : io_scope.
Notation "m ;;; k" := (bind m (fun _ => k))
  (at level 100, right associativity) : io_scope.
Local Open Scope io_scope.

(** ** The connector and stream operations used by [plain.py]

    [plain.py] imports [FileConnector] from [hup.io] and works on whatever
    stream the connector's [open] returns.  The operations it calls are the
    fields below; every function of [plain.py] is written against them. *)

Class FileIO : Type := {
  World : Type;
  FileRef : Type;
  Conn : Type;
  Handle : Type;
  (** [FileConnector(file)] *)
  FileConnector : FileRef -> M World Conn;
  (** [cman.open(mode=mode)] *)
  cman_open : Conn -> string -> M World Handle;
  (** [cman.close()]; a connector's close reports no failure (spec 4.1) *)
  cman_close : Conn -> World -> World;
  (** [isinstance(fh, io.TextIOBase)] *)
  is_TextIOBase : Handle -> bool;
  (** [fh.read()] *)
  fh_read : Handle -> M World string;
  (** [fh.write(text)], the number of characters written *)
  fh_write : Handle -> string -> M World Z;
  (** the lines [for line in fh] yields from the current position when
      the stream can be read to its end, or the exception raised when the
      first line is fetched (a closed stream, a stream not open for
      reading); a stream that fails after it has yielded lines is not
      described *)
  fh_lines : Handle -> World -> result (list string);
  (** the stream after [k] lines have been fetched from it *)
  fh_advance : Handle -> nat -> World -> World;
}.

Section Plain.
Context `{IO : FileIO}.

(** What [openx] does to its connector, in order. *)
Inductive call : Type :=
  | CallOpen (cman : Conn) (mode : string)
  | CallClose (cman : Conn)
  | Yield (fh : Handle).

(** The state [openx] runs in: the world, and the calls made so far. *)
Definition Traced : Type := World * list call.

Definition lift {A} (m : M World A) : M Traced A :=
  fun '(w, t) => let '(r, w') := m w in (r, (w', t)).

Definition log (c : call) : M Traced unit :=
  fun '(w, t) => (Ok tt, (w, t ++ [c])).

Definition do_open (cman : Conn) (mode : string) : M Traced Handle :=
  log (CallOpen cman mode) ;;; lift (cman_open cman mode).

Definition do_close (cman : Conn) : M Traced unit :=
  log (CallClose cman) ;;; lift (fun w => (Ok tt, cman_close cman w)).

(** [mode] after lines 75-76: ['t'] is appended unless already there. *)
Definition text_mode (mode : string) : string :=
  if negb (char_in "t" mode) then mode +:+ "t" else mode.

(** The error of line 80. *)
Definition not_text : exn :=
  ValueError "the opened stream is not a valid text file".

(** [with openx(file, mode) as fh: body] (plain.py, lines 43-85).  [body]
    is the code of the [with] block; it sees the yielded handle and the
    world, not the connector. *)
Definition openx {A} (file : FileRef) (mode : string)
    (body : Handle -> M World A) : M Traced A :=
  cman <- lift (FileConnector file) ;;
  let mode := text_mode mode in
  fh <- do_open cman mode ;;
  if negb (is_TextIOBase fh) then
    do_close cman ;;;
    raise not_text
  else
    try_finally (log (Yield fh) ;;; lift (body fh)) (do_close cman).

(** [load] (plain.py, lines 87-102) *)
Definition load (file : FileRef) : M Traced string :=
  openx file "r" (fun fh => fh_read fh).

(** [save] (plain.py, lines 104-117) *)
Definition save (text : string) (file : FileRef) : M Traced unit :=
  openx file "w" (fun fh => fh_write fh text ;;; ret tt).

(** [for line in fh: body] inside a [with] block, for a stream that
    fails on the first fetch or not at all. *)
Definition for_lines {St} (fh : Handle) (body : string -> St -> ctl St)
    (s0 : St) : M World St :=
  fun w =>
    match fh_lines fh w with
    | Raise e => (Raise e, w)
    | Ok ls => let '(s, k) := for_each body ls s0 in (Ok s, fh_advance fh k w)
    end.

(** [get_comment] (plain.py, lines 119-142) *)
Definition get_comment (file : FileRef) : M Traced string :=
  lines <- openx file "r" (fun fh => for_lines fh get_comment_body []) ;;
  ret (str_rstrip (str_join lines)).

(** [get_content] (plain.py, lines 144-169) *)
Definition get_content (file : FileRef) (lines : Z) : M Traced (list string) :=
  openx file "r" (fun fh => for_lines fh (get_content_body lines) []).

(** The reference [file] opens, in reading mode, to a text stream that
    yields the lines [ls]. *)
Definition opens_to_lines (file : FileRef) (w : World) (ls : list string)
    : Prop :=
  exists cman w1 fh w2,
    FileConnector file w = (Ok cman, w1)
    /\ cman_open cman "rt" w1 = (Ok fh, w2)
    /\ is_TextIOBase fh = true
    /\ fh_lines fh w2 = Ok ls.

End Plain.

(** ** [hup.io.abc.Connector] (abc.py, lines 34-48)

    The abstract base class declares two abstract members: the property
    [name] and the method [open].  Python refuses to instantiate a subclass
    as long as one of them is not overridden. *)

Inductive member_kind : Type :=
  | AbstractProperty
  | AbstractMethod.

Definition Connector : list (string * member_kind) :=
  [("name", AbstractProperty); ("open", AbstractMethod)].

(** [Connector.__abstractmethods__] *)
Definition abstractmethods (cls : list (string * member_kind)) : list string :=
  map fst cls.

(** A subclass of [Connector], given by the attributes its body defines,
    can be instantiated when it overrides every abstract member. *)
Definition instantiable (defined : list string) : bool :=
  forallb (fun m => bool_decide (m ∈ defined)) (abstractmethods Connector).

(** [hasattr(obj, attr)] for an instance of such a subclass: the attribute
    is defined by the subclass or declared by [Connector]. *)
Definition provides (defined : list string) (attr : string) : bool :=
  bool_decide (attr ∈ defined ++ abstractmethods Connector).

(** ** A file system with text streams, and [FileConnector] over it

    An instance of [FileIO].  Files hold characters (the platform encoding
    is taken to store every character and give it back); text streams
    translate newlines the way Python's text mode does by default; a
    stream opened for writing keeps what is written until it is closed.
    Of the mode characters only ['r'], ['w'] and ['t'] are understood, the
    ones [openx] documents. *)

Module DiskModel.

(** [os.linesep] is ["\n"] or ["\r\n"]. *)
Inductive platform : Type := Posix | Windows.

Definition os_linesep (os : platform) : string :=
  match os with
  | Posix => String LF ""
  | Windows => String CR (String LF "")
  end.

(** Text-mode reading with the default [newline=None]: ["\r\n"] and a
    lone ["\r"] are handed to the program as ["\n"]. *)
Fixpoint universal_newlines (s : string) : string :=
  match s with
  | EmptyString => EmptyString
  | String c r =>
      if Ascii.eqb c CR then
        match r with
        | String d r' =>
            if Ascii.eqb d LF then String LF (universal_newlines r')
            else String LF (universal_newlines r)
        | EmptyString => String LF EmptyString
        end
      else String c (universal_newlines r)
  end.

(** Text-mode writing with the default [newline=None]: every ["\n"] is
    stored as [os.linesep]. *)
Fixpoint write_newlines (sep : string) (s : string) : string :=
  match s with
  | EmptyString => EmptyString
  | String c r =>
      if Ascii.eqb c LF then sep +:+ write_newlines sep r
      else String c (write_newlines sep r)
  end.

(** Line iteration of a text stream: split after every ["\n"], keeping it. *)
Fixpoint readlines (s : string) : list string :=
  match s with
  | EmptyString => []
  | String c r =>
      if Ascii.eqb c LF then String c EmptyString :: readlines r
      else
        match readlines r with
        | [] => [String c EmptyString]
        | l :: ls => String c l :: ls
        end
  end.

Inductive stream_class : Type :=
  | TextIO      (* a subclass of io.TextIOBase *)
  | BinaryIO.   (* any other stream class *)

(** A reference to a stream object: its address, and its class. *)
Record handle : Type := { h_addr : nat; h_class : stream_class }.

Inductive access : Type := Reading | Writing.

(** The mutable state of a stream object.  For a reading stream [st_data]
    is the text not read yet; for a writing stream it is the text written
    and not flushed yet. *)
Record stream : Type := {
  st_access : access;
  st_path : option string;
  st_data : string;
  st_closed : bool;
}.

Record world : Type := {
  os : platform;
  (** the process-wide variable table, as the expansion it induces on
      paths; [None] when a path cannot be expanded *)
  expand : string -> option string;
  (** the file system: resolved path to stored characters *)
  disk : gmap string string;
  (** paths that cannot be opened for writing *)
  denied : gset string;
  (** stream objects by address *)
  heap : gmap nat stream;
  (** connectors by identity: the streams each one has opened *)
  owned : gmap nat (list nat);
  (** next unused address or identity *)
  next : nat;
}.

Definition with_disk (d : gmap string string) (w : world) : world :=
  {| os := os w; expand := expand w; disk := d; denied := denied w;
     heap := heap w; owned := owned w; next := next w |}.

Definition with_heap (h : gmap nat stream) (w : world) : world :=
  {| os := os w; expand := expand w; disk := disk w; denied := denied w;
     heap := h; owned := owned w; next := next w |}.

Definition with_owned (o : gmap nat (list nat)) (w : world) : world :=
  {| os := os w; expand := expand w; disk := disk w; denied := denied w;
     heap := heap w; owned := o; next := next w |}.

(** Uses up the address [next w]. *)
Definition bump (w : world) : world :=
  {| os := os w; expand := expand w; disk := disk w; denied := denied w;
     heap := heap w; owned := owned w; next := S (next w) |}.

(** A connector written by the user of the library: any object with a
    [name] and an [open]. *)
Record user_connector : Type := {
  uc_name : option string;
  uc_open : string -> M world handle;
}.

(** The three shapes of a file reference. *)
Inductive file_ref : Type :=
  | RefPath (path : string)
  | RefStream (fh : handle)
  | RefConnector (c : user_connector).

(** A [FileConnector] object: its identity and the reference it wraps. *)
Record connector : Type := { c_id : nat; c_file : file_ref }.

(** The mode strings the library documents: read or write, in text mode. *)
Definition parse_mode (mode : string) : option access :=
  if char_in "b" mode then None
  else
    match char_in "r" mode, char_in "w" mode with
    | true, false => Some Reading
    | false, true => Some Writing
    | _, _ => None
    end.

(** Allocates the stream object [st] for connector [cman]. *)
Definition new_stream (cman : connector) (st : stream) (w : world)
    : handle * world :=
  let a := next w in
  let kids := default [] (owned w !! c_id cman) in
  ({| h_addr := a; h_class := TextIO |},
   bump (with_owned (<[c_id cman := kids ++ [a]]> (owned w))
           (with_heap (<[a := st]> (heap w)) w))).

(** The built-in [open(path, mode)] on a resolved path. *)
Definition open_path (cman : connector) (path mode : string)
    : M world handle :=
  fun w =>
    match parse_mode mode with
    | None => (Raise (ValueError "invalid mode"), w)
    | Some Reading =>
        match disk w !! path with
        | None => (Raise OSError, w)
        | Some stored =>
            let st := {| st_access := Reading; st_path := Some path;
                         st_data := universal_newlines stored;
                         st_closed := false |} in
            let '(fh, w') := new_stream cman st w in (Ok fh, w')
        end
    | Some Writing =>
        if bool_decide (path ∈ denied w) then (Raise OSError, w)
        else
          let st := {| st_access := Writing; st_path := Some path;
                       st_data := ""; st_closed := false |} in
          let '(fh, w') :=
            new_stream cman st (with_disk (<[path := ""]> (disk w)) w) in
          (Ok fh, w')
    end.

(** Closing a stream object: pending text reaches the disk. *)
Definition close_stream (a : nat) (w : world) : world :=
  match heap w !! a with
  | None => w
  | Some st =>
      if st_closed st then w
      else
        let closed := {| st_access := st_access st; st_path := st_path st;
                         st_data := ""; st_closed := true |} in
        let w' := with_heap (<[a := closed]> (heap w)) w in
        match st_access st, st_path st with
        | Writing, Some path =>
            let stored := default "" (disk w !! path) in
            with_disk
              (<[path := stored +:+ write_newlines (os_linesep (os w)) (st_data st)]>
                 (disk w)) w'
        | _, _ => w'
        end
  end.

(** Modelled from the spec: [hup.io.FileConnector], which is imported by
    plain.py and defined outside the sources at hand.  Constructing a
    connector records the reference (spec 3, Connector lifecycle). *)
Definition file_connector (file : file_ref) : M world connector :=
  fun w =>
    (Ok {| c_id := next w; c_file := file |},
     bump (with_owned (<[next w := []]> (owned w)) w)).

(** Modelled from the spec: [FileConnector.open] (spec 4.1).  A path is
    expanded against the variable table and opened; an already-open
    stream is returned as it is; a connector is delegated to. *)
Definition connector_open (cman : connector) (mode : string)
    : M world handle :=
  match c_file cman with
  | RefPath path =>
      fun w =>
        match expand w path with
        | None => (Raise ResolutionError, w)
        | Some resolved => open_path cman resolved mode w
        end
  | RefStream fh => ret fh
  | RefConnector c => uc_open c mode
  end.

(** Modelled from the spec: [FileConnector.close] (spec 4.1).  It closes
    the streams this connector opened itself, and nothing else. *)
Definition connector_close (cman : connector) (w : world) : world :=
  match c_file cman with
  | RefPath _ =>
      let kids := default [] (owned w !! c_id cman) in
      foldl (fun w a => close_stream a w) w kids
  | RefStream _ => w
  | RefConnector _ => w
  end.

Definition is_text (fh : handle) : bool :=
  match h_class fh with TextIO => true | BinaryIO => false end.

(** The stream object behind a handle, when it can be used. *)
Definition usable (fh : handle) (acc : access) (w : world) : result stream :=
  match heap w !! h_addr fh with
  | None => Raise (ValueError "I/O operation on closed file")
  | Some st =>
      if st_closed st then Raise (ValueError "I/O operation on closed file")
      else
        match st_access st, acc with
        | Reading, Reading | Writing, Writing => Ok st
        | _, _ => Raise OSError   (* io.UnsupportedOperation *)
        end
  end.

Definition set_data (fh : handle) (st : stream) (data : string) (w : world)
    : world :=
  with_heap
    (<[h_addr fh := {| st_access := st_access st; st_path := st_path st;
                       st_data := data; st_closed := st_closed st |}]>
       (heap w)) w.

(** [fh.read()]: everything from the current position to the end. *)
Definition stream_read (fh : handle) : M world string :=
  fun w =>
    match usable fh Reading w with
    | Raise e => (Raise e, w)
    | Ok st => (Ok (st_data st), set_data fh st "" w)
    end.

(** [fh.write(text)]: the text is buffered until the stream is closed. *)
Definition stream_write (fh : handle) (text : string) : M world Z :=
  fun w =>
    match usable fh Writing w with
    | Raise e => (Raise e, w)
    | Ok st =>
        (Ok (Z.of_nat (String.length text)),
         set_data fh st (st_data st +:+ text) w)
    end.

Definition stream_lines (fh : handle) (w : world) : result (list string) :=
  match usable fh Reading w with
  | Raise e => Raise e
  | Ok st => Ok (readlines (st_data st))
  end.

Definition stream_advance (fh : handle) (k : nat) (w : world) : world :=
  match usable fh Reading w with
  | Raise _ => w
  | Ok st => set_data fh st (str_join (drop k (readlines (st_data st)))) w
  end.

#[export] Instance disk_io : FileIO := {|
  World := world;
  FileRef := file_ref;
  Conn := connector;
  Handle := handle;
  FileConnector := file_connector;
  cman_open := connector_open;
  cman_close := connector_close;
  is_TextIOBase := is_text;
  fh_read := stream_read;
  fh_write := stream_write;
  fh_lines := stream_lines;
  fh_advance := stream_advance;
|}.

(** [save(text, path)] followed by [load(path)], from world [w]. *)
Definition save_then_load (text path : string) (w : world) : result string :=
  match save text (RefPath path) (w, []) with
  | (Ok _, (w', _)) => fst (load (RefPath path) (w', []))
  | (Raise e, _) => Raise e
  end.

(** [path] can be written to: it expands, and opening the resolved path
    for writing is not refused. *)
Definition writable (path : string) (w : world) : Prop :=
  exists resolved, expand w path = Some resolved /\ resolved ∉ denied w.

(** A small world: four files, one path that cannot be written, and a
    binary in-memory stream at address 0. *)
Definition demo_world : world :=
  {| os := Posix;
     expand := fun p => Some p;
     disk :=
       <[ "data.csv" :=
            ln "# h" +:+ ln "" +:+ ln "a,1" +:+ ln "# mid" +:+ ln "b,2" ]>
       (<[ "README" :=
             ln "# Title" +:+ ln "# desc" +:+ ln "" +:+ ln "# more"
             +:+ ln "data" ]>
       (<[ "bare.txt" := ln "# a" +:+ ln "#   " +:+ ln "# b" ]>
     {[ "plain.txt" := ln "a,1" +:+ ln "# late" ]}));
     denied := {[ "/proc/version" ]};
     heap := {[ 0%nat := {| st_access := Reading; st_path := None;
                            st_data := ""; st_closed := false |} ]};
     owned := ∅;
     next := 1%nat |}.

Definition demo_binary : handle := {| h_addr := 0; h_class := BinaryIO |}.

End DiskModel.

(** ** The line scanners, in the words of their description *)

(** Every character of [s] satisfies [p]. *)
Fixpoint all_chars (p : ascii -> bool) (s : string) : bool :=
  match s with
  | EmptyString => true
  | String c r => p c && all_chars p r
  end.

(** A blank line: nothing but whitespace. *)
Definition is_blank (line : string) : bool := all_chars py_isspace line.

(** The last character of a string. *)
Fixpoint last_char (s : string) : option ascii :=
  match s with
  | EmptyString => None
  | String c EmptyString => Some c
  | String _ r => last_char r
  end.

(** A comment line: ['#'] is its first character after left-stripping. *)
Definition is_comment_line (line : string) : bool :=
  startswith_hash (str_lstrip line).

(** The leading block of a file: everything before the first line that is
    neither blank nor a comment line. *)
Fixpoint comment_block (fh : list string) : list string :=
  match fh with
  | [] => []
  | line :: rest =>
      if is_blank line || is_comment_line line
      then line :: comment_block rest
      else []
  end.

(** A comment line without its marker and the whitespace after it. *)
Definition comment_text (line : string) : string :=
  str_lstrip (slice_from_1 (str_lstrip line)).

(** The header as section 4.5 words it. *)
Definition header_of (fh : list string) : string :=
  str_rstrip
    (str_join
       (map comment_text
          (filter (fun l => is_blank l = false) (comment_block fh)))).

(** The first non-blank line of a file, if there is one. *)
Definition first_nonblank (fh : list string) : option string :=
  List.find (fun l => negb (is_blank l)) fh.

(** A content line: its stripped form is neither empty nor a comment. *)
Definition is_content_line (line : string) : bool :=
  negb (str_falsy (str_strip line)) && negb (startswith_hash (str_strip line)).

(** A line without its trailing carriage returns and line feeds. *)
Definition chomp (line : string) : string :=
  str_rstrip_chars (String CR (String LF "")) line.

Definition is_crlf (c : ascii) : bool := Ascii.eqb c CR || Ascii.eqb c LF.

(** The content lines as section 4.6 words them, without a limit. *)
Definition content_of (fh : list string) : list string :=
  map chomp (filter (fun l => is_content_line l = true) fh).

(** ** Calls recorded in a trace *)

Section Traces.
Context `{IO : FileIO}.

Definition is_close (c : call) : bool :=
  match c with CallClose _ => true | _ => false end.

(** How often [close()] was called. *)
Definition closes (t : list call) : nat :=
  List.length (List.filter is_close t).

(** The modes [open] was called with. *)
Fixpoint opened_modes (t : list call) : list string :=
  match t with
  | [] => []
  | CallOpen _ m :: r => m :: opened_modes r
  | _ :: r => opened_modes r
  end.

(** The handles the caller got to see. *)
Fixpoint yielded (t : list call) : list Handle :=
  match t with
  | [] => []
  | Yield fh :: r => fh :: yielded r
  | _ :: r => yielded r
  end.

End Traces.

(** * Properties *)

(** ** Strings *)

Lemma rstrip_by_empty p s :
  rstrip_by p s = EmptyString <-> all_chars p s = true.
Proof.
  induction s as [|c r IH]; simpl; [tauto|].
  destruct (rstrip_by p r) eqn:E.
  - destruct (p c); simpl.
    + split; [intros _; now apply IH | reflexivity].
    + split; discriminate.
  - split; [discriminate|].
    intros H. apply andb_prop in H as [_ H]. apply IH in H. discriminate.
Qed.

Lemma strip_falsy_blank p s :
  str_falsy (rstrip_by p (lstrip_by p s)) = all_chars p s.
Proof.
  induction s as [|c r IH]; simpl; [reflexivity|].
  destruct (p c) eqn:Hc; simpl; [exact IH|].
  rewrite Hc. now destruct (rstrip_by p r).
Qed.

Lemma str_strip_blank line : str_falsy (str_strip line) = is_blank line.
Proof. apply strip_falsy_blank. Qed.

Lemma lstrip_by_all p s : all_chars p s = true -> lstrip_by p s = EmptyString.
Proof.
  induction s as [|c r IH]; simpl; [reflexivity|].
  intros H. apply andb_prop in H as [Hc Hr]. rewrite Hc. now apply IH.
Qed.

Lemma lstrip_by_app p s1 s2 :
  all_chars p s1 = true -> lstrip_by p (s1 +:+ s2) = lstrip_by p s2.
Proof.
  induction s1 as [|c r IH]; simpl; [reflexivity|].
  intros H. apply andb_prop in H as [Hc Hr]. rewrite Hc. now apply IH.
Qed.

Lemma all_chars_app p s1 s2 :
  all_chars p (s1 +:+ s2) = all_chars p s1 && all_chars p s2.
Proof.
  induction s1 as [|c r IH]; simpl; [reflexivity|].
  rewrite IH. now rewrite andb_assoc.
Qed.

(** [rstrip_by] splits a string into the kept part and a stripped tail. *)
Lemma rstrip_by_split p s :
  exists tail,
    s = rstrip_by p s +:+ tail
    /\ all_chars p tail = true
    /\ (forall c, last_char (rstrip_by p s) = Some c -> p c = false).
Proof.
  induction s as [|c r (tail & Hs & Ht & Hl)]; simpl.
  - exists EmptyString. repeat split. discriminate.
  - destruct (rstrip_by p r) as [|d r'] eqn:E.
    + destruct (p c) eqn:Hc.
      * exists (String c r). simpl. repeat split; [|discriminate].
        rewrite Hc. simpl. simpl in Hs. rewrite Hs. exact Ht.
      * exists tail. simpl. repeat split; [now rewrite Hs at 1|exact Ht|].
        intros c' [= <-]. exact Hc.
    + exists tail. repeat split; [simpl; now rewrite Hs at 1|exact Ht|].
      exact Hl.
Qed.

Lemma str_app_assoc (s1 s2 s3 : string) :
  (s1 +:+ s2) +:+ s3 = s1 +:+ (s2 +:+ s3).
Proof. induction s1 as [|c r IH]; simpl; [reflexivity|]. now rewrite IH. Qed.

Lemma str_app_nil_r (s : string) : s +:+ "" = s.
Proof. induction s as [|c r IH]; simpl; [reflexivity|]. now rewrite IH. Qed.

Lemma str_join_app xs ys : str_join (xs ++ ys) = str_join xs +:+ str_join ys.
Proof.
  induction xs as [|x xs IH]; simpl; [reflexivity|].
  rewrite IH. now rewrite str_app_assoc.
Qed.

(** ** One iteration of each loop *)

Lemma get_comment_body_blank line acc :
  is_blank line = true -> get_comment_body line acc = Continue acc.
Proof.
  intros Hb. unfold get_comment_body.
  change (str_rstrip (str_lstrip line)) with (str_strip line).
  now rewrite str_strip_blank, Hb.
Qed.

Lemma get_comment_body_comment line acc :
  is_blank line = false -> is_comment_line line = true ->
  get_comment_body line acc = Continue (acc ++ [comment_text line]).
Proof.
  intros Hb Hc. unfold get_comment_body.
  change (str_rstrip (str_lstrip line)) with (str_strip line).
  rewrite str_strip_blank, Hb. unfold is_comment_line in Hc. now rewrite Hc.
Qed.

Lemma get_comment_body_stop line acc :
  is_blank line = false -> is_comment_line line = false ->
  get_comment_body line acc = Break acc.
Proof.
  intros Hb Hc. unfold get_comment_body.
  change (str_rstrip (str_lstrip line)) with (str_strip line).
  rewrite str_strip_blank, Hb. unfold is_comment_line in Hc. now rewrite Hc.
Qed.

Lemma get_content_body_full n line acc :
  n <> 0 -> n <= py_len acc -> get_content_body n line acc = Break acc.
Proof.
  intros Hn Hfull. unfold get_content_body.
  replace (n =? 0) with false by (symmetry; apply Z.eqb_neq; lia).
  now replace (py_len acc >=? n) with true by lia.
Qed.

Lemma get_content_body_skip n line acc :
  n = 0 \/ py_len acc < n -> is_content_line line = false ->
  get_content_body n line acc = Continue acc.
Proof.
  intros Hn Hs. unfold get_content_body.
  replace (negb (n =? 0) && (py_len acc >=? n)) with false.
  - unfold is_content_line in Hs. rewrite <- negb_orb in Hs.
    apply negb_false_iff in Hs. now rewrite Hs.
  - destruct Hn as [->|Hn]; [reflexivity|].
    replace (py_len acc >=? n) with false by lia. now rewrite andb_false_r.
Qed.

Lemma get_content_body_take n line acc :
  n = 0 \/ py_len acc < n -> is_content_line line = true ->
  get_content_body n line acc = Continue (acc ++ [chomp line]).
Proof.
  intros Hn Hs. unfold get_content_body.
  replace (negb (n =? 0) && (py_len acc >=? n)) with false.
  - unfold is_content_line in Hs. rewrite <- negb_orb in Hs.
    apply negb_true_iff in Hs. now rewrite Hs.
  - destruct Hn as [->|Hn]; [reflexivity|].
    replace (py_len acc >=? n) with false by lia. now rewrite andb_false_r.
Qed.

Lemma for_each_continue {St} (body : string -> St -> ctl St) line rest s s' :
  body line s = Continue s' ->
  fst (for_each body (line :: rest) s) = fst (for_each body rest s').
Proof. intros H. simpl. rewrite H. now destruct (for_each body rest s'). Qed.

Lemma for_each_break {St} (body : string -> St -> ctl St) line rest s s' :
  body line s = Break s' -> fst (for_each body (line :: rest) s) = s'.
Proof. intros H. simpl. now rewrite H. Qed.

(** ** The two loops *)

Lemma get_comment_loop fh acc :
  fst (for_each get_comment_body fh acc)
  = acc ++ map comment_text
             (filter (fun l => is_blank l = false) (comment_block fh)).
Proof.
  revert acc. induction fh as [|line rest IH]; intros acc.
  - simpl. now rewrite app_nil_r.
  - cbn [comment_block]. destruct (is_blank line) eqn:Hb; cbn [orb].
    + rewrite (for_each_continue _ _ _ _ acc)
        by now apply get_comment_body_blank.
      rewrite IH, filter_cons_False; [reflexivity|]. rewrite Hb. discriminate.
    + destruct (is_comment_line line) eqn:Hc.
      * rewrite (for_each_continue _ _ _ _ (acc ++ [comment_text line]))
          by now apply get_comment_body_comment.
        rewrite IH, filter_cons_True by exact Hb.
        simpl. now rewrite <- app_assoc.
      * rewrite (for_each_break _ _ _ _ acc)
          by now apply get_comment_body_stop.
        now rewrite filter_nil, app_nil_r.
Qed.

Lemma get_comment_of_header fh : get_comment_of fh = header_of fh.
Proof. unfold get_comment_of, header_of. now rewrite get_comment_loop. Qed.

Lemma content_of_cons line rest :
  content_of (line :: rest)
  = if is_content_line line then chomp line :: content_of rest
    else content_of rest.
Proof.
  unfold content_of. destruct (is_content_line line) eqn:Hs.
  - now rewrite filter_cons_True.
  - rewrite filter_cons_False; [reflexivity|]. rewrite Hs. discriminate.
Qed.

Lemma get_content_loop_unbounded fh acc :
  fst (for_each (get_content_body 0) fh acc) = acc ++ content_of fh.
Proof.
  revert acc. induction fh as [|line rest IH]; intros acc.
  - simpl. now rewrite app_nil_r.
  - rewrite content_of_cons. destruct (is_content_line line) eqn:Hs.
    + rewrite (for_each_continue _ _ _ _ (acc ++ [chomp line]))
        by (apply get_content_body_take; auto).
      rewrite IH. now rewrite <- app_assoc.
    + rewrite (for_each_continue _ _ _ _ acc)
        by (apply get_content_body_skip; auto).
      apply IH.
Qed.

Lemma get_content_loop_bounded n fh acc :
  0 < n -> py_len acc <= n ->
  fst (for_each (get_content_body n) fh acc)
  = take (Z.to_nat n) (acc ++ content_of fh).
Proof.
  intros Hn. revert acc. induction fh as [|line rest IH]; intros acc Hacc.
  - simpl. rewrite app_nil_r. rewrite take_ge; [reflexivity|].
    unfold py_len in Hacc. lia.
  - destruct (Z.eq_dec (py_len acc) n) as [Hfull|Hroom].
    + rewrite (for_each_break _ _ _ _ acc)
        by (apply get_content_body_full; lia).
      rewrite take_app_le by (unfold py_len in *; lia).
      rewrite take_ge; [reflexivity|]. unfold py_len in *. lia.
    + assert (py_len acc < n) as Hlt by lia.
      rewrite content_of_cons. destruct (is_content_line line) eqn:Hs.
      * rewrite (for_each_continue _ _ _ _ (acc ++ [chomp line]))
          by (apply get_content_body_take; auto).
        rewrite IH.
        -- now rewrite <- app_assoc.
        -- unfold py_len in *. rewrite length_app. simpl. lia.
      * rewrite (for_each_continue _ _ _ _ acc)
          by (apply get_content_body_skip; auto).
        now apply IH.
Qed.

Lemma get_content_of_unbounded fh : get_content_of fh 0 = content_of fh.
Proof. unfold get_content_of. now rewrite get_content_loop_unbounded. Qed.

Lemma get_content_of_positive fh n :
  0 < n -> get_content_of fh n = take (Z.to_nat n) (content_of fh).
Proof.
  intros Hn. unfold get_content_of.
  rewrite get_content_loop_bounded; [reflexivity|exact Hn|].
  unfold py_len. simpl. lia.
Qed.

Lemma get_content_of_negative fh n : n < 0 -> get_content_of fh n = [].
Proof.
  intros Hn. unfold get_content_of. destruct fh as [|line rest]; [reflexivity|].
  apply for_each_break, get_content_body_full; [lia|].
  unfold py_len. simpl. lia.
Qed.

(** ** [openx]: every way it can run *)

Section OpenxFacts.
Context `{IO : FileIO}.

Lemma openx_run {A} file mode (body : Handle -> M World A) w t :
  openx file mode body (w, t) =
  match FileConnector file w with
  | (Raise e, w1) => (Raise e, (w1, t))
  | (Ok cman, w1) =>
      match cman_open cman (text_mode mode) w1 with
      | (Raise e, w2) => (Raise e, (w2, t ++ [CallOpen cman (text_mode mode)]))
      | (Ok fh, w2) =>
          if is_TextIOBase fh then
            (fst (body fh w2),
             (cman_close cman (snd (body fh w2)),
              t ++ [CallOpen cman (text_mode mode); Yield fh; CallClose cman]))
          else
            (Raise not_text,
             (cman_close cman w2,
              t ++ [CallOpen cman (text_mode mode); CallClose cman]))
      end
  end.
Proof.
  unfold openx, do_open, do_close, bind, lift, log, try_finally, raise.
  destruct (FileConnector file w) as [[cman|e] w1]; [|reflexivity].
  destruct (cman_open cman (text_mode mode) w1) as [[fh|e] w2]; [|reflexivity].
  destruct (is_TextIOBase fh); simpl.
  - destruct (body fh w2) as [r w3]. simpl.
    now rewrite <- !app_assoc.
  - now rewrite <- !app_assoc.
Qed.

Lemma text_mode_has_t mode : char_in "t" (text_mode mode) = true.
Proof.
  unfold text_mode. destruct (char_in "t" mode) eqn:E; simpl; [exact E|].
  induction mode as [|c r IH]; simpl; [reflexivity|].
  simpl in E. apply orb_false_elim in E as [-> E]. simpl. now apply IH.
Qed.

Lemma get_comment_run file w ls :
  opens_to_lines file w ls ->
  fst (get_comment file (w, [])) = Ok (get_comment_of ls).
Proof.
  intros (cman & w1 & fh & w2 & H1 & H2 & H3 & H4).
  unfold get_comment, bind. rewrite openx_run.
  change (text_mode "r") with "rt". rewrite H1, H2, H3.
  unfold for_lines, get_comment_of. rewrite H4.
  now destruct (for_each get_comment_body ls []).
Qed.

Lemma get_content_run file n w ls :
  opens_to_lines file w ls ->
  fst (get_content file n (w, [])) = Ok (get_content_of ls n).
Proof.
  intros (cman & w1 & fh & w2 & H1 & H2 & H3 & H4).
  unfold get_content. rewrite openx_run.
  change (text_mode "r") with "rt". rewrite H1, H2, H3.
  unfold for_lines, get_content_of. rewrite H4.
  now destruct (for_each (get_content_body n) ls []).
Qed.

End OpenxFacts.

(** ** Saving and loading through the file system *)

Import DiskModel.

Lemma newlines_roundtrip os T :
  char_in CR T = false ->
  universal_newlines (write_newlines (os_linesep os) T) = T.
Proof.
  induction T as [|c r IH]; [reflexivity|].
  cbn [char_in write_newlines]. intros H. apply orb_false_elim in H as [Hc Hr].
  specialize (IH Hr). destruct (Ascii.eqb c LF) eqn:Hlf.
  - apply Ascii.eqb_eq in Hlf as ->. destruct os; simpl in *; now rewrite IH.
  - simpl. rewrite Ascii.eqb_sym in Hc. rewrite Hc. now rewrite IH.
Qed.

Lemma save_run T p w resolved :
  expand w p = Some resolved -> resolved ∉ denied w ->
  exists w' t,
    save T (RefPath p) (w, []) = (Ok tt, (w', t))
    /\ expand w' = expand w /\ os w' = os w
    /\ disk w' !! resolved = Some (write_newlines (os_linesep (os w)) T).
Proof.
  intros He Hd. unfold save. eexists _, _. split.
  - etrans; [apply openx_run|]. cbn. rewrite He. unfold open_path.
    change (parse_mode (text_mode "w")) with (Some Writing). cbn.
    rewrite bool_decide_eq_false_2 by exact Hd. cbn.
    unfold stream_write, usable, bind, ret. cbn.
    rewrite !lookup_insert_eq. cbn. rewrite !lookup_insert_eq. cbn.
    unfold close_stream. cbn. rewrite !lookup_insert_eq. cbn.
    reflexivity.
  - cbn. rewrite !lookup_insert_eq. cbn. auto.
Qed.

Lemma load_run p w resolved stored :
  expand w p = Some resolved -> disk w !! resolved = Some stored ->
  fst (load (RefPath p) (w, [])) = Ok (universal_newlines stored).
Proof.
  intros He Hs. unfold load.
  etrans; [apply (f_equal fst), openx_run|]. cbn. rewrite He. unfold open_path.
  change (parse_mode (text_mode "r")) with (Some Reading). cbn.
  rewrite Hs. cbn. unfold stream_read, usable. cbn.
  rewrite !lookup_insert_eq. reflexivity.
Qed.

Lemma save_then_load_run T p w :
  writable p w ->
  save_then_load T p w
  = Ok (universal_newlines (write_newlines (os_linesep (os w)) T)).
Proof.
  intros (resolved & He & Hd). unfold save_then_load.
  destruct (save_run T p w resolved He Hd) as (w' & t & -> & He' & _ & Hs).
  apply (load_run p w' resolved); [now rewrite He'|exact Hs].
Qed.

(** ** The scoped acquisition *)

Section OpenxClaims.
Context `{IO : FileIO}.

(** C2 (as amended).  [openx] leaves in one of four ways.  When the
    connector cannot be built, or its [open] raises, the error reaches the
    caller unchanged and [close()] is not called.  Once [open] has
    returned a handle, [close()] is called exactly once and is the last
    thing [openx] does: after the scope has run (whether it returned or
    raised, its outcome is the outcome of [openx]), or, for a handle that
    is not a text stream, before the [ValueError] is raised. *)
Theorem openx_close_discipline {A} file mode (body : Handle -> M World A) w :
  let '(r, (w', t)) := openx file mode body (w, []) in
  match FileConnector file w with
  | (Raise e, _) => r = Raise e /\ closes t = 0%nat
  | (Ok cman, w1) =>
      match cman_open cman (text_mode mode) w1 with
      | (Raise e, _) => r = Raise e /\ closes t = 0%nat
      | (Ok fh, w2) =>
          closes t = 1%nat /\ last t = Some (CallClose cman)
          /\ (if is_TextIOBase fh
              then r = fst (body fh w2)
                   /\ w' = cman_close cman (snd (body fh w2))
              else r = Raise not_text /\ w' = cman_close cman w2)
      end
  end.
Proof.
  rewrite openx_run.
  destruct (FileConnector file w) as [[cman|e] w1]; [|now split].
  destruct (cman_open cman (text_mode mode) w1) as [[fh|e] w2]; [|now split].
  destruct (is_TextIOBase fh); simpl; auto.
Qed.

(** C3.  When the handle returned by the connector's [open] is not a text
    stream, [openx] calls [close()] on the connector and raises a
    [ValueError]; nothing is yielded, and the code of the [with] block
    does not run: the world is the one [close()] left behind. *)
Theorem openx_rejects_non_text {A} file mode (body : Handle -> M World A)
    w cman w1 fh w2 :
  FileConnector file w = (Ok cman, w1) ->
  cman_open cman (text_mode mode) w1 = (Ok fh, w2) ->
  is_TextIOBase fh = false ->
  openx file mode body (w, [])
  = (Raise (ValueError "the opened stream is not a valid text file"),
     (cman_close cman w2,
      [CallOpen cman (text_mode mode); CallClose cman]))
  /\ yielded (snd (snd (openx file mode body (w, [])))) = [].
Proof.
  intros H1 H2 H3. rewrite openx_run, H1, H2, H3. now split.
Qed.

(** C7.  Whatever mode string is supplied, [openx] calls the connector's
    [open], as soon as the connector is built and exactly once, with a
    mode that contains ['t']: the supplied mode when that has a ['t'], and
    the supplied mode followed by ['t'] otherwise.  What that call returns
    is what [openx] goes on with: its error is the error of [openx], and
    its handle is the one handle the caller gets to see, provided it is a
    text stream; no other handle is ever yielded. *)
Theorem openx_forces_text_mode {A} file mode (body : Handle -> M World A) w :
  char_in "t" (text_mode mode) = true
  /\ text_mode mode = (if char_in "t" mode then mode else mode +:+ "t")
  /\ Forall (fun m => m = text_mode mode)
       (opened_modes (snd (snd (openx file mode body (w, [])))))
  /\ Forall (fun fh => is_TextIOBase fh = true)
       (yielded (snd (snd (openx file mode body (w, [])))))
  /\ (forall cman w1,
        FileConnector file w = (Ok cman, w1) ->
        (exists rest,
           snd (snd (openx file mode body (w, [])))
           = CallOpen cman (text_mode mode) :: rest)
        /\ opened_modes (snd (snd (openx file mode body (w, []))))
           = [text_mode mode]
        /\ match cman_open cman (text_mode mode) w1 with
           | (Ok fh, w2) =>
               yielded (snd (snd (openx file mode body (w, []))))
               = (if is_TextIOBase fh then [fh] else [])
               /\ (is_TextIOBase fh = true ->
                   fst (openx file mode body (w, [])) = fst (body fh w2))
           | (Raise e, w2) =>
               openx file mode body (w, [])
               = (Raise e, (w2, [CallOpen cman (text_mode mode)]))
           end).
Proof.
  split; [apply text_mode_has_t|].
  split; [unfold text_mode; now destruct (char_in "t" mode)|].
  rewrite openx_run.
  destruct (FileConnector file w) as [[cman|e] w1].
  - destruct (cman_open cman (text_mode mode) w1) as [[fh|e] w2] eqn:Hopen.
    + destruct (is_TextIOBase fh) eqn:Ht; simpl.
      * split; [auto|]. split; [auto|].
        intros c w' [= <- <-]. rewrite Hopen, Ht.
        split; [eexists; reflexivity|]. now repeat split.
      * split; [auto|]. split; [auto|].
        intros c w' [= <- <-]. rewrite Hopen, Ht.
        split; [eexists; reflexivity|]. split; [reflexivity|].
        split; [reflexivity|discriminate].
    + simpl. split; [auto|]. split; [auto|].
      intros c w' [= <- <-]. rewrite Hopen.
      split; [eexists; reflexivity|]. now split.
  - simpl. split; [auto|]. split; [auto|]. intros c w' [=].
Qed.

(** ** The header comment *)

Lemma no_leading_comment fh :
  (forall l, first_nonblank fh = Some l -> is_comment_line l = false) ->
  filter (fun l => is_blank l = false) (comment_block fh) = [].
Proof.
  induction fh as [|line rest IH]; intros H; [reflexivity|].
  cbn [comment_block]. unfold first_nonblank in *. simpl in H.
  destruct (is_blank line) eqn:Hb; simpl in *.
  - rewrite filter_cons_False by (rewrite Hb; discriminate). now apply IH.
  - now rewrite (H line eq_refl).
Qed.

Lemma comment_block_all pre :
  forallb (fun l => is_blank l || is_comment_line l) pre = true ->
  comment_block pre = pre.
Proof.
  induction pre as [|x pre IH]; [reflexivity|]. cbn [forallb comment_block].
  intros H. apply andb_prop in H as [-> H]. now rewrite IH.
Qed.

Lemma comment_block_stop pre stop post :
  forallb (fun l => is_blank l || is_comment_line l) pre = true ->
  is_blank stop = false -> is_comment_line stop = false ->
  comment_block (pre ++ stop :: post) = pre.
Proof.
  intros H Hb Hc. induction pre as [|x pre IH]; cbn [app forallb comment_block].
  - now rewrite Hb, Hc.
  - cbn [forallb] in H. apply andb_prop in H as [-> H]. now rewrite IH.
Qed.

(** C4.  [get_comment] returns the right-stripped concatenation of the
    comment lines of the leading block, each without its ['#'] and the
    whitespace after it; blank lines of the block are skipped.  The block
    ends at the first line that is neither blank nor a comment: that line
    and all lines after it add nothing to the header.  On the five lines
    of the example the header is the three comment lines, and on a file
    whose first non-blank line is not a comment it is the empty string. *)
Theorem get_comment_header file w fh :
  opens_to_lines file w fh ->
  fst (get_comment file (w, [])) = Ok (header_of fh)
  /\ (forall pre stop post,
        fh = pre ++ stop :: post ->
        forallb (fun l => is_blank l || is_comment_line l) pre = true ->
        is_blank stop = false ->
        is_comment_line stop = false ->
        fst (get_comment file (w, [])) = Ok (header_of pre)
        /\ comment_block fh = pre)
  /\ (forall rest,
        get_comment_of
          ([ln "# Title"; ln "# desc"; ln ""; ln "# more"; ln "data"] ++ rest)
        = ln "Title" +:+ ln "desc" +:+ "more")
  /\ ((forall l, first_nonblank fh = Some l -> is_comment_line l = false) ->
      fst (get_comment file (w, [])) = Ok "").
Proof.
  intros H. rewrite (get_comment_run _ _ _ H), get_comment_of_header.
  split; [reflexivity|]. split; [|split; [reflexivity|]].
  - intros pre stop post -> Hpre Hb Hc. unfold header_of.
    rewrite comment_block_stop, comment_block_all by assumption. now split.
  - intros Hno. unfold header_of. now rewrite no_leading_comment.
Qed.

(** ** The content lines *)

Lemma chomp_split line :
  exists tail,
    line = chomp line +:+ tail
    /\ all_chars is_crlf tail = true
    /\ (forall c, last_char (chomp line) = Some c -> is_crlf c = false).
Proof.
  destruct (rstrip_by_split (fun c => char_in c (String CR (String LF ""))) line)
    as (tail & Hs & Ht & Hl).
  exists tail. split; [exact Hs|]. split.
  - clear Hs Hl. induction tail as [|c r IH]; [reflexivity|].
    simpl in *. apply andb_prop in Ht as [Hc Hr].
    rewrite orb_false_r in Hc. unfold is_crlf. rewrite Hc. now apply IH.
  - intros c Hc. apply Hl in Hc. simpl in Hc. rewrite orb_false_r in Hc.
    exact Hc.
Qed.

(** C5.  Without a limit, [get_content] returns, in the order of the
    file, the lines whose stripped form is neither empty nor starts with
    ['#'], each cut before its trailing run of carriage returns and line
    feeds and otherwise unchanged.  On the five lines of the example it
    returns the two data rows. *)
Theorem get_content_selects file w fh :
  opens_to_lines file w fh ->
  fst (get_content file 0 (w, [])) = Ok (content_of fh)
  /\ (forall line,
        exists tail,
          line = chomp line +:+ tail
          /\ all_chars is_crlf tail = true
          /\ (forall c, last_char (chomp line) = Some c -> is_crlf c = false))
  /\ get_content_of [ln "# h"; ln ""; ln "a,1"; ln "# mid"; ln "b,2"] 0
     = ["a,1"; "b,2"].
Proof.
  intros H. rewrite (get_content_run _ _ _ _ H), get_content_of_unbounded.
  split; [reflexivity|]. split; [apply chomp_split|reflexivity].
Qed.

Lemma py_len_take {X} (n : Z) (xs : list X) :
  0 <= n -> py_len (take (Z.to_nat n) xs) = Z.min n (py_len xs).
Proof. intros Hn. unfold py_len. rewrite length_take. lia. Qed.

(** C6 (as amended).  With a positive limit [n], [get_content] collects
    until it has [n] lines: the result has [n] elements when the file has
    that many content lines, and all of them otherwise.  With limit zero
    every content line is returned.  With a negative limit nothing is
    collected.  With limit 1 the example yields its first data row. *)
Theorem get_content_limit file n w fh :
  opens_to_lines file w fh ->
  exists out,
    fst (get_content file n (w, [])) = Ok out
    /\ (0 < n -> py_len out <= n
                 /\ py_len out = Z.min n (py_len (content_of fh)))
    /\ (n = 0 -> out = content_of fh)
    /\ (n < 0 -> out = [])
    /\ get_content_of [ln "# h"; ln ""; ln "a,1"; ln "# mid"; ln "b,2"] 1
       = ["a,1"].
Proof.
  intros H. exists (get_content_of fh n).
  split; [now apply get_content_run|]. repeat split.
  - rewrite get_content_of_positive, py_len_take by lia. lia.
  - rewrite get_content_of_positive, py_len_take by lia. reflexivity.
  - intros ->. apply get_content_of_unbounded.
  - apply get_content_of_negative.
Qed.

(** C9.  With a positive limit [n], [get_content] returns the first
    [min n k] elements of what it returns without a limit, [k] being the
    length of that result. *)
Theorem get_content_limit_truncates file n w fh :
  0 < n ->
  opens_to_lines file w fh ->
  exists full,
    fst (get_content file 0 (w, [])) = Ok full
    /\ fst (get_content file n (w, []))
       = Ok (take (Z.to_nat (Z.min n (py_len full))) full).
Proof.
  intros Hn H. exists (content_of fh).
  rewrite !(get_content_run _ _ _ _ H), get_content_of_unbounded.
  split; [reflexivity|]. rewrite get_content_of_positive by exact Hn.
  f_equal. destruct (Z.le_ge_cases n (py_len (content_of fh))) as [Hle|Hge].
  - now rewrite Z.min_l.
  - rewrite Z.min_r by exact Hge. unfold py_len in *.
    rewrite Nat2Z.id, firstn_all. apply take_ge. lia.
Qed.

End OpenxClaims.

(** ** A comment line with nothing after the marker *)

Lemma hash_line_not_blank ws1 ws2 :
  is_blank (ws1 +:+ String HASH ws2) = false.
Proof.
  unfold is_blank. rewrite all_chars_app. simpl. apply andb_false_r.
Qed.

Lemma hash_line_is_comment ws1 ws2 :
  is_blank ws1 = true -> is_comment_line (ws1 +:+ String HASH ws2) = true.
Proof.
  intros H. unfold is_comment_line, str_lstrip.
  now rewrite lstrip_by_app by exact H.
Qed.

Lemma hash_line_text ws1 ws2 :
  is_blank ws1 = true -> is_blank ws2 = true ->
  comment_text (ws1 +:+ String HASH ws2) = "".
Proof.
  intros H1 H2. unfold comment_text, str_lstrip.
  rewrite lstrip_by_app by exact H1. simpl. now apply lstrip_by_all.
Qed.

Lemma header_skips_empty_text pre line post :
  is_blank line = false -> is_comment_line line = true ->
  comment_text line = "" ->
  header_of (pre ++ line :: post) = header_of (pre ++ post).
Proof.
  intros Hb Hc Ht. unfold header_of. f_equal.
  induction pre as [|x pre IH]; cbn [app comment_block].
  - rewrite Hb, Hc. cbn [orb]. rewrite filter_cons_True by exact Hb.
    cbn [map str_join]. now rewrite Ht.
  - destruct (is_blank x || is_comment_line x); [|reflexivity].
    destruct (is_blank x) eqn:Hx.
    + rewrite !filter_cons_False by (rewrite Hx; discriminate). exact IH.
    + rewrite !filter_cons_True by exact Hx. cbn [map str_join]. now rewrite IH.
Qed.

Section BareMarker.
Context `{IO : FileIO}.

(** C10.  A line made of optional whitespace, ['#'], and whitespace only
    (its line terminator included) adds the empty string to the list
    [get_comment] accumulates, and the scan goes on.  The header is
    therefore the one of the file without that line: no blank line and no
    separator is left between the neighbouring comment lines. *)
Theorem get_comment_bare_marker ws1 ws2 pre post acc file w :
  is_blank ws1 = true ->
  is_blank ws2 = true ->
  get_comment_body (ws1 +:+ String HASH ws2) acc = Continue (acc ++ [""])
  /\ get_comment_of (pre ++ (ws1 +:+ String HASH ws2) :: post)
     = get_comment_of (pre ++ post)
  /\ (opens_to_lines file w (pre ++ (ws1 +:+ String HASH ws2) :: post) ->
      fst (get_comment file (w, [])) = Ok (get_comment_of (pre ++ post))).
Proof.
  intros H1 H2.
  pose proof (hash_line_not_blank ws1 ws2) as Hb.
  pose proof (hash_line_is_comment ws1 ws2 H1) as Hc.
  pose proof (hash_line_text ws1 ws2 H1 H2) as Ht.
  assert (get_comment_of (pre ++ (ws1 +:+ String HASH ws2) :: post)
          = get_comment_of (pre ++ post)) as Heq.
  { rewrite !get_comment_of_header. now apply header_skips_empty_text. }
  split; [|split; [exact Heq|]].
  - rewrite get_comment_body_comment by assumption. now rewrite Ht.
  - intros H. rewrite (get_comment_run _ _ _ H). now rewrite Heq.
Qed.

End BareMarker.

(** ** The connector contract *)

(** C8 (as amended).  The abstract base class [Connector] obliges a
    connector to provide [name] and [open], and nothing else: a subclass
    can be instantiated exactly when it defines both, and [close] is not
    among the abstract members. *)
Theorem connector_contract (defined : list string) :
  abstractmethods Connector = ["name"; "open"]
  /\ (instantiable defined = true <-> "name" ∈ defined /\ "open" ∈ defined)
  /\ "close" ∉ abstractmethods Connector.
Proof.
  split; [reflexivity|]. split.
  - unfold instantiable. simpl. rewrite andb_true_r, andb_true_iff.
    now rewrite !bool_decide_eq_true.
  - simpl. intros H. repeat (apply elem_of_cons in H as [H|H]; [discriminate|]).
    now apply elem_of_nil in H.
Qed.

(** C8, as stated, fails: a class that defines only [name] and [open]
    satisfies the contract and has no [close]. *)
Lemma connector_without_close :
  instantiable ["name"; "open"] = true
  /\ provides ["name"; "open"] "close" = false.
Proof. split; reflexivity. Qed.

Lemma connector_contract_witness :
  instantiable ["open"; "name"; "close"] = true.
Proof.
  apply (connector_contract ["open"; "name"; "close"]).
  split; [apply list_elem_of_In; simpl; tauto | apply list_elem_of_In; simpl; tauto].
Defined.

(** ** Saving, then loading *)

(** C1 (as amended).  On a writable path, [save] followed by [load]
    returns the text as the text-mode stream hands it back: the text after
    the default newline translation of writing and of reading.  For a text
    without carriage return that is the text itself, on either platform;
    [save] and [load] add and remove nothing themselves. *)
Theorem save_load_roundtrip T p w :
  writable p w ->
  save_then_load T p w
  = Ok (universal_newlines (write_newlines (os_linesep (os w)) T))
  /\ (char_in CR T = false -> save_then_load T p w = Ok T).
Proof.
  intros H. rewrite (save_then_load_run _ _ _ H). split; [reflexivity|].
  intros Hcr. now rewrite newlines_roundtrip.
Qed.

Lemma demo_writable : writable "out.txt" demo_world.
Proof.
  exists "out.txt". split; [reflexivity|].
  unfold demo_world. cbn [denied]. intros H%elem_of_singleton. discriminate.
Defined.

(** C1, as stated, fails on a text that holds a carriage return: it is
    read back as a line feed. *)
Lemma save_load_carriage_return :
  writable "out.txt" demo_world
  /\ save_then_load (String CR "") "out.txt" demo_world = Ok (String LF "")
  /\ save_then_load (String CR "") "out.txt" demo_world <> Ok (String CR "").
Proof.
  split; [exact demo_writable|].
  split; [vm_compute; reflexivity|]. vm_compute. discriminate.
Qed.

Lemma save_load_roundtrip_witness :
  writable "out.txt" demo_world
  /\ save_then_load (ln "a,1") "out.txt" demo_world = Ok (ln "a,1").
Proof.
  split; [exact demo_writable|].
  apply (save_load_roundtrip (ln "a,1") "out.txt" demo_world demo_writable).
  reflexivity.
Defined.

(** ** The claims on concrete files *)

(** An error raised inside the scope: writing to a stream opened for
    reading.  The error reaches the caller, after one [close()]. *)
Example openx_scope_error_closed :
  let '(r, (_, t)) :=
    openx (RefPath "data.csv") "r" (fun fh => stream_write fh "x")
      (demo_world, []) in
  r = Raise OSError /\ closes t = 1%nat /\ yielded t <> [].
Proof. vm_compute. repeat split. discriminate. Qed.

(** C2, as stated, fails when the connector's [open] raises: the missing
    file is reported and [close()] has not been called. *)
Lemma openx_open_failure_not_closed :
  let '(r, (_, t)) :=
    openx (RefPath "missing.txt") "r" stream_read (demo_world, []) in
  r = Raise OSError /\ closes t = 0%nat /\ closes t <> 1%nat.
Proof. vm_compute. repeat split. discriminate. Qed.

Lemma openx_rejects_non_text_witness :
  is_TextIOBase demo_binary = false
  /\ fst (openx (RefStream demo_binary) "r" stream_read (demo_world, []))
     = Raise (ValueError "the opened stream is not a valid text file")
  /\ yielded (snd (snd (openx (RefStream demo_binary) "r" stream_read
                          (demo_world, [])))) = [].
Proof.
  split; [reflexivity|].
  destruct (openx_rejects_non_text (IO:=disk_io) (RefStream demo_binary) "r" stream_read
              demo_world _ _ demo_binary _ eq_refl eq_refl eq_refl)
    as [H1 H2].
  split; [exact (f_equal fst H1) | exact H2].
Defined.

Lemma demo_opens_data :
  opens_to_lines (RefPath "data.csv") demo_world
    [ln "# h"; ln ""; ln "a,1"; ln "# mid"; ln "b,2"].
Proof.
  unfold opens_to_lines. eexists _, _, _, _.
  split; [reflexivity|]. split; [vm_compute; reflexivity|].
  split; [reflexivity|]. vm_compute. reflexivity.
Defined.

Lemma demo_opens_readme :
  opens_to_lines (RefPath "README") demo_world
    [ln "# Title"; ln "# desc"; ln ""; ln "# more"; ln "data"].
Proof.
  unfold opens_to_lines. eexists _, _, _, _.
  split; [reflexivity|]. split; [vm_compute; reflexivity|].
  split; [reflexivity|]. vm_compute. reflexivity.
Defined.

Lemma demo_opens_bare :
  opens_to_lines (RefPath "bare.txt") demo_world
    ([ln "# a"] ++ ("" +:+ String HASH (ln "   ")) :: [ln "# b"]).
Proof.
  unfold opens_to_lines. eexists _, _, _, _.
  split; [reflexivity|]. split; [vm_compute; reflexivity|].
  split; [reflexivity|]. vm_compute. reflexivity.
Defined.

Lemma demo_opens_plain :
  opens_to_lines (RefPath "plain.txt") demo_world [ln "a,1"; ln "# late"].
Proof.
  unfold opens_to_lines. eexists _, _, _, _.
  split; [reflexivity|]. split; [vm_compute; reflexivity|].
  split; [reflexivity|]. vm_compute. reflexivity.
Defined.

Lemma openx_forces_text_mode_witness :
  exists cman w1 fh w2,
    FileConnector (RefPath "README") demo_world = (Ok cman, w1)
    /\ cman_open cman "rt" w1 = (Ok fh, w2)
    /\ is_TextIOBase fh = true
    /\ opened_modes
         (snd (snd (openx (RefPath "README") "r" stream_read (demo_world, []))))
       = ["rt"]
    /\ yielded
         (snd (snd (openx (RefPath "README") "r" stream_read (demo_world, []))))
       = [fh]
    /\ fst (openx (RefPath "README") "r" stream_read (demo_world, []))
       = fst (stream_read fh w2).
Proof.
  destruct demo_opens_readme as (cman & w1 & fh & w2 & H1 & H2 & H3 & _).
  exists cman, w1, fh, w2. repeat (split; [assumption|]).
  destruct (openx_forces_text_mode (IO:=disk_io) (RefPath "README") "r"
              stream_read demo_world) as (_ & _ & _ & _ & Hcalled).
  destruct (Hcalled cman w1 H1) as (_ & Hmodes & Hopen).
  change (text_mode "r") with "rt" in Hopen.
  change (@cman_open disk_io) with connector_open in H2.
  change (@cman_open disk_io) with connector_open in Hopen.
  rewrite H2 in Hopen. destruct Hopen as [Hy Hr].
  change (@is_TextIOBase disk_io) with is_text in H3, Hy.
  rewrite H3 in Hy.
  split; [exact Hmodes|]. split; [exact Hy|]. exact (Hr H3).
Defined.

Lemma get_comment_header_witness :
  (opens_to_lines (RefPath "README") demo_world
     ([ln "# Title"; ln "# desc"; ln ""; ln "# more"] ++ ln "data" :: [])
   /\ fst (get_comment (RefPath "README") (demo_world, []))
      = Ok (ln "Title" +:+ ln "desc" +:+ "more")
   /\ comment_block [ln "# Title"; ln "# desc"; ln ""; ln "# more"; ln "data"]
      = [ln "# Title"; ln "# desc"; ln ""; ln "# more"])
  /\ (opens_to_lines (RefPath "plain.txt") demo_world [ln "a,1"; ln "# late"]
      /\ (forall l,
            first_nonblank [ln "a,1"; ln "# late"] = Some l ->
            is_comment_line l = false)
      /\ fst (get_comment (RefPath "plain.txt") (demo_world, [])) = Ok "").
Proof.
  split.
  - split; [exact demo_opens_readme|].
    destruct (get_comment_header (IO:=disk_io) _ _ _ demo_opens_readme)
      as (_ & Hstop & _).
    apply (Hstop [ln "# Title"; ln "# desc"; ln ""; ln "# more"] (ln "data") []);
      reflexivity.
  - split; [exact demo_opens_plain|].
    assert (forall l, first_nonblank [ln "a,1"; ln "# late"] = Some l ->
                      is_comment_line l = false) as Hno.
    { intros l [= <-]. reflexivity. }
    split; [exact Hno|].
    destruct (get_comment_header (IO:=disk_io) _ _ _ demo_opens_plain)
      as (_ & _ & _ & Hempty).
    exact (Hempty Hno).
Defined.

Lemma get_content_selects_witness :
  opens_to_lines (RefPath "data.csv") demo_world
    [ln "# h"; ln ""; ln "a,1"; ln "# mid"; ln "b,2"]
  /\ fst (get_content (RefPath "data.csv") 0 (demo_world, []))
     = Ok ["a,1"; "b,2"].
Proof.
  split; [exact demo_opens_data|].
  apply (get_content_selects (IO:=disk_io) _ _ _ demo_opens_data).
Defined.

(** C6, as stated, fails for a negative limit: nothing is collected, and
    zero elements are more than the limit. *)
Lemma get_content_negative_limit :
  get_content_of [ln "# h"; ln ""; ln "a,1"; ln "# mid"; ln "b,2"] (-1) = []
  /\ exists out,
       fst (get_content (RefPath "data.csv") (-1) (demo_world, [])) = Ok out
       /\ ~ (py_len out <= -1).
Proof.
  split; [reflexivity|].
  exists []. split; [vm_compute; reflexivity|]. vm_compute. auto.
Qed.

Lemma get_content_limit_witness :
  opens_to_lines (RefPath "data.csv") demo_world
    [ln "# h"; ln ""; ln "a,1"; ln "# mid"; ln "b,2"]
  /\ exists out,
       fst (get_content (RefPath "data.csv") 1 (demo_world, [])) = Ok out
       /\ py_len out <= 1.
Proof.
  split; [exact demo_opens_data|].
  destruct (get_content_limit (IO:=disk_io) (RefPath "data.csv") 1 demo_world _ demo_opens_data)
    as (out & Hrun & Hpos & _).
  exists out. split; [exact Hrun|]. apply Hpos. reflexivity.
Defined.

Lemma get_content_limit_truncates_witness :
  0 < 1
  /\ opens_to_lines (RefPath "data.csv") demo_world
       [ln "# h"; ln ""; ln "a,1"; ln "# mid"; ln "b,2"]
  /\ exists full,
       fst (get_content (RefPath "data.csv") 0 (demo_world, [])) = Ok full
       /\ fst (get_content (RefPath "data.csv") 1 (demo_world, []))
          = Ok (take (Z.to_nat (Z.min 1 (py_len full))) full).
Proof.
  split; [reflexivity|]. split; [exact demo_opens_data|].
  apply (get_content_limit_truncates (IO:=disk_io) (RefPath "data.csv") 1 demo_world _
           eq_refl demo_opens_data).
Defined.

Lemma get_comment_bare_marker_witness :
  is_blank "" = true
  /\ is_blank (ln "   ") = true
  /\ get_comment_of ([ln "# a"] ++ ("" +:+ String HASH (ln "   ")) :: [ln "# b"])
     = get_comment_of ([ln "# a"] ++ [ln "# b"])
  /\ fst (get_comment (RefPath "bare.txt") (demo_world, []))
     = Ok (ln "a" +:+ "b").
Proof.
  split; [reflexivity|]. split; [reflexivity|].
  destruct (get_comment_bare_marker (IO:=disk_io) "" (ln "   ") [ln "# a"] [ln "# b"] []
              (RefPath "bare.txt") demo_world eq_refl eq_refl)
    as (_ & Heq & Hrun).
  split; [exact Heq|]. exact (Hrun demo_opens_bare).
Defined.

(** * Further properties of the scanners *)

(** ** More on stripping *)

Lemma py_isspace_crlf c : is_crlf c = true -> py_isspace c = true.
Proof.
  unfold is_crlf. intros [H|H]%orb_prop; apply Ascii.eqb_eq in H as ->;
    reflexivity.
Qed.

Lemma all_chars_impl (p q : ascii -> bool) s :
  (forall c, p c = true -> q c = true) ->
  all_chars p s = true -> all_chars q s = true.
Proof.
  intros Hpq. induction s as [|c r IH]; [reflexivity|]. simpl.
  intros [Hc Hr]%andb_prop. rewrite (Hpq _ Hc). now apply IH.
Qed.

Lemma rstrip_by_app_tail p s tail :
  all_chars p tail = true -> rstrip_by p (s +:+ tail) = rstrip_by p s.
Proof.
  intros Ht. induction s as [|c r IH]; simpl.
  - now apply rstrip_by_empty.
  - now rewrite IH.
Qed.

Lemma strip_by_app_tail p s tail :
  all_chars p tail = true ->
  rstrip_by p (lstrip_by p (s +:+ tail)) = rstrip_by p (lstrip_by p s).
Proof.
  intros Ht. induction s as [|c r IH]; simpl.
  - rewrite lstrip_by_all by exact Ht. reflexivity.
  - destruct (p c); [exact IH|].
    change (String c (r +:+ tail)) with (String c r +:+ tail).
    now apply rstrip_by_app_tail.
Qed.

Lemma lstrip_by_idem p s : lstrip_by p (lstrip_by p s) = lstrip_by p s.
Proof.
  induction s as [|c r IH]; simpl; [reflexivity|].
  destruct (p c) eqn:Hc; [exact IH|]. simpl. now rewrite Hc.
Qed.

Lemma rstrip_by_cons p c r :
  rstrip_by p (String c r)
  = match rstrip_by p r with
    | EmptyString => if p c then EmptyString else String c EmptyString
    | String _ _ as r' => String c r'
    end.
Proof. reflexivity. Qed.

Lemma rstrip_by_idem p s : rstrip_by p (rstrip_by p s) = rstrip_by p s.
Proof.
  induction s as [|c r IH]; [reflexivity|]. rewrite rstrip_by_cons.
  destruct (rstrip_by p r) as [|d r'] eqn:E.
  - destruct (p c) eqn:Hc; simpl; [reflexivity|]. now rewrite Hc.
  - rewrite rstrip_by_cons, IH. reflexivity.
Qed.

(** A string that [lstrip] leaves alone keeps that property when text is
    appended to it, unless it is empty. *)
Lemma lstrip_by_fixed_app p s t :
  lstrip_by p s = s -> lstrip_by p t = t -> lstrip_by p (s +:+ t) = s +:+ t.
Proof.
  destruct s as [|c r]; simpl; [auto|].
  destruct (p c) eqn:Hc; [|reflexivity].
  intros H _. exfalso.
  assert (forall u, String.length (lstrip_by p u) <= String.length u)%nat as Hlen.
  { induction u as [|d u IH]; simpl; [lia|]. destruct (p d); simpl; lia. }
  specialize (Hlen r). rewrite H in Hlen. simpl in Hlen. lia.
Qed.

Lemma lstrip_by_fixed_join p xs :
  Forall (fun x => lstrip_by p x = x) xs ->
  lstrip_by p (str_join xs) = str_join xs.
Proof.
  induction 1 as [|x xs Hx _ IH]; simpl; [reflexivity|].
  now apply lstrip_by_fixed_app.
Qed.

Lemma lstrip_by_fixed_rstrip p s :
  lstrip_by p s = s -> lstrip_by p (rstrip_by p s) = rstrip_by p s.
Proof.
  destruct s as [|c r]; simpl; [reflexivity|].
  destruct (p c) eqn:Hc.
  - intros H. exfalso.
    assert (forall u, String.length (lstrip_by p u) <= String.length u)%nat as Hlen.
    { induction u as [|d u IH]; simpl; [lia|]. destruct (p d); simpl; lia. }
    specialize (Hlen r). rewrite H in Hlen. simpl in Hlen. lia.
  - intros _. destruct (rstrip_by p r); simpl; now rewrite Hc.
Qed.

Lemma startswith_hash_rstrip s :
  startswith_hash (str_rstrip s) = startswith_hash s.
Proof.
  destruct s as [|c r]; [reflexivity|]. unfold str_rstrip. simpl.
  destruct (rstrip_by py_isspace r); [|reflexivity].
  destruct (py_isspace c) eqn:Hc; [|reflexivity]. simpl.
  destruct (Ascii.eqb c HASH) eqn:Hh; [|reflexivity].
  apply Ascii.eqb_eq in Hh as ->. discriminate.
Qed.

(** Both scanners sort a line into the same three classes. *)
Lemma content_class line :
  is_content_line line = negb (is_blank line || is_comment_line line).
Proof.
  unfold is_content_line, is_comment_line.
  rewrite str_strip_blank. unfold str_strip.
  now rewrite startswith_hash_rstrip, negb_orb.
Qed.

Lemma chomp_idem line : chomp (chomp line) = chomp line.
Proof. apply rstrip_by_idem. Qed.

Lemma str_strip_chomp line : str_strip (chomp line) = str_strip line.
Proof.
  destruct (chomp_split line) as (tail & Hs & Ht & _).
  rewrite Hs at 2. symmetry. apply strip_by_app_tail.
  apply (all_chars_impl is_crlf); [apply py_isspace_crlf|exact Ht].
Qed.

Lemma is_content_chomp line : is_content_line (chomp line) = is_content_line line.
Proof. unfold is_content_line. now rewrite str_strip_chomp. Qed.

Lemma chomp_ln line : chomp (ln line) = chomp line.
Proof. apply rstrip_by_app_tail. reflexivity. Qed.

Lemma is_content_ln line : is_content_line (ln line) = is_content_line line.
Proof.
  unfold is_content_line, str_strip, str_rstrip, str_lstrip, ln.
  now rewrite (strip_by_app_tail py_isspace line (String LF "")).
Qed.

(** ** More on the two loops *)

Lemma for_each_continue_count {St} (body : string -> St -> ctl St)
    line rest s s' :
  body line s = Continue s' ->
  snd (for_each body (line :: rest) s) = S (snd (for_each body rest s')).
Proof. intros H. simpl. rewrite H. now destruct (for_each body rest s'). Qed.

Lemma for_each_break_count {St} (body : string -> St -> ctl St)
    line rest s s' :
  body line s = Break s' -> snd (for_each body (line :: rest) s) = 1%nat.
Proof. intros H. simpl. now rewrite H. Qed.

Lemma get_comment_count fh acc :
  snd (for_each get_comment_body fh acc)
  = Nat.min (List.length fh) (S (List.length (comment_block fh))).
Proof.
  revert acc. induction fh as [|line rest IH]; intros acc; [reflexivity|].
  cbn [comment_block]. destruct (is_blank line) eqn:Hb; cbn [orb].
  - rewrite (for_each_continue_count _ _ _ _ acc)
      by now apply get_comment_body_blank.
    rewrite IH. simpl. lia.
  - destruct (is_comment_line line) eqn:Hc.
    + rewrite (for_each_continue_count _ _ _ _ (acc ++ [comment_text line]))
        by now apply get_comment_body_comment.
      rewrite IH. simpl. lia.
    + rewrite (for_each_break_count _ _ _ _ acc)
        by now apply get_comment_body_stop.
      simpl. lia.
Qed.

Lemma content_of_app a b : content_of (a ++ b) = content_of a ++ content_of b.
Proof. unfold content_of. now rewrite filter_app, map_app. Qed.

Lemma py_len_app {X} (xs ys : list X) :
  py_len (xs ++ ys) = py_len xs + py_len ys.
Proof. unfold py_len. rewrite length_app. lia. Qed.

(** While the limit is not reached, [get_content] works through the lines
    one by one. *)
Lemma get_content_loop_through n init rest acc :
  n = 0 \/ py_len acc + py_len (content_of init) < n ->
  for_each (get_content_body n) (init ++ rest) acc
  = (fst (for_each (get_content_body n) rest (acc ++ content_of init)),
     (List.length init + snd (for_each (get_content_body n) rest (acc ++ content_of init)))%nat).
Proof.
  revert acc. induction init as [|line init IH]; intros acc Hn.
  - cbn [app List.length content_of]. unfold content_of. cbn [filter map].
    rewrite filter_nil, app_nil_r. cbn [map].
    now destruct (for_each (get_content_body n) rest acc).
  - rewrite content_of_cons in *. cbn [app for_each].
    assert (py_len (content_of init) >= 0) as Hpos by (unfold py_len; lia).
    destruct (is_content_line line) eqn:Hs.
    + rewrite (get_content_body_take n line acc); [|
        destruct Hn as [Hn|Hn]; [now left|right];
        unfold py_len in *; simpl in Hn; lia | exact Hs].
      rewrite IH.
      * rewrite <- app_assoc. reflexivity.
      * destruct Hn as [Hn|Hn]; [now left|right].
        rewrite py_len_app. unfold py_len in *. simpl in *. lia.
    + rewrite (get_content_body_skip n line acc); [|
        destruct Hn as [Hn|Hn]; [now left|right]; lia | exact Hs].
      rewrite IH by exact Hn. reflexivity.
Qed.

Lemma get_content_count_all n fh :
  n = 0 \/ py_len (content_of fh) < n ->
  snd (for_each (get_content_body n) fh []) = List.length fh.
Proof.
  intros Hn. rewrite <- (app_nil_r fh) at 1.
  rewrite get_content_loop_through by (unfold py_len at 1; simpl; lia).
  simpl. lia.
Qed.

Lemma get_content_count_limit n init last extra post :
  0 < n -> is_content_line last = true ->
  py_len (content_of (init ++ [last])) = n ->
  snd (for_each (get_content_body n) (init ++ last :: extra :: post) [])
  = (List.length init + 2)%nat.
Proof.
  intros Hn Hs Hlen. rewrite content_of_app, py_len_app in Hlen.
  rewrite content_of_cons, Hs in Hlen. unfold py_len in Hlen at 2.
  simpl in Hlen.
  rewrite get_content_loop_through by (right; unfold py_len at 1; simpl; lia).
  cbn [snd app].
  rewrite (for_each_continue_count _ _ _ _ (content_of init ++ [chomp last]))
    by (apply get_content_body_take; [right; lia|exact Hs]).
  rewrite (for_each_break_count _ _ _ _ (content_of init ++ [chomp last])).
  - lia.
  - apply get_content_body_full; [lia|]. rewrite py_len_app.
    unfold py_len at 2. simpl. lia.
Qed.

Lemma get_content_count_negative n line rest :
  n < 0 -> snd (for_each (get_content_body n) (line :: rest) []) = 1%nat.
Proof.
  intros Hn. apply (for_each_break_count _ _ _ _ []).
  apply get_content_body_full; [lia|]. unfold py_len. simpl. lia.
Qed.

(** Whatever the limit, the result is an initial part of the content
    lines of the file. *)
Lemma get_content_of_take fh n :
  exists k, get_content_of fh n = take k (content_of fh).
Proof.
  destruct (Z.lt_trichotomy n 0) as [Hn|[->|Hn]].
  - exists 0%nat. now rewrite get_content_of_negative.
  - exists (List.length (content_of fh)).
    now rewrite get_content_of_unbounded, firstn_all.
  - exists (Z.to_nat n). now apply get_content_of_positive.
Qed.


Lemma content_of_fixed xs :
  Forall (fun l => is_content_line l = true /\ chomp l = l) xs ->
  content_of xs = xs /\ content_of (map ln xs) = xs.
Proof.
  induction 1 as [|x xs [Hc Hx] _ [IH1 IH2]]; [now split|].
  cbn [map]. rewrite !content_of_cons, is_content_ln, Hc, chomp_ln, Hx.
  now rewrite IH1, IH2.
Qed.

Lemma content_of_clean fh :
  Forall (fun l => is_content_line l = true /\ chomp l = l) (content_of fh).
Proof.
  induction fh as [|line rest IH]; [constructor|].
  rewrite content_of_cons. destruct (is_content_line line) eqn:Hs; [|exact IH].
  constructor; [|exact IH]. now rewrite is_content_chomp, chomp_idem.
Qed.

Lemma comment_block_split fh :
  fh = comment_block fh ++ drop (List.length (comment_block fh)) fh.
Proof.
  induction fh as [|line rest IH]; [reflexivity|]. cbn [comment_block].
  destruct (is_blank line || is_comment_line line); [|reflexivity].
  cbn [List.length drop app]. now rewrite <- IH.
Qed.

Lemma content_of_block fh : content_of (comment_block fh) = [].
Proof.
  induction fh as [|line rest IH]; [reflexivity|]. cbn [comment_block].
  destruct (is_blank line || is_comment_line line) eqn:Hc; [|reflexivity].
  rewrite content_of_cons, content_class, Hc. exact IH.
Qed.

Lemma after_block_is_content fh line rest :
  drop (List.length (comment_block fh)) fh = line :: rest ->
  is_content_line line = true.
Proof.
  induction fh as [|x fh IH]; [discriminate|]. cbn [comment_block].
  destruct (is_blank x || is_comment_line x) eqn:Hc.
  - cbn [List.length drop]. exact IH.
  - cbn [List.length drop]. intros [= <- <-]. now rewrite content_class, Hc.
Qed.

Section ScannerFacts.
Context `{IO : FileIO}.

(** A scanner's run once the stream is open. *)
Lemma scan_run {St} file w cman w1 fh w2
    (body : string -> St -> ctl St) (s0 : St) :
  FileConnector file w = (Ok cman, w1) ->
  cman_open cman "rt" w1 = (Ok fh, w2) ->
  is_TextIOBase fh = true ->
  openx file "r" (fun fh => for_lines fh body s0) (w, []) =
  match fh_lines fh w2 with
  | Ok ls =>
      (Ok (fst (for_each body ls s0)),
       (cman_close cman (fh_advance fh (snd (for_each body ls s0)) w2),
        [CallOpen cman "rt"; Yield fh; CallClose cman]))
  | Raise e =>
      (Raise e,
       (cman_close cman w2, [CallOpen cman "rt"; Yield fh; CallClose cman]))
  end.
Proof.
  intros H1 H2 H3. rewrite openx_run. change (text_mode "r") with "rt".
  rewrite H1, H2, H3. unfold for_lines.
  destruct (fh_lines fh w2) as [ls|e]; [|reflexivity].
  now destruct (for_each body ls s0).
Qed.

(** X1.  The header [get_comment] returns has no whitespace at either
    end: stripping it again changes nothing. *)
Theorem get_comment_stripped file w fh :
  opens_to_lines file w fh ->
  exists out,
    fst (get_comment file (w, [])) = Ok out
    /\ str_lstrip out = out
    /\ str_rstrip out = out
    /\ str_strip out = out.
Proof.
  intros H. exists (get_comment_of fh). split; [now apply get_comment_run|].
  assert (str_lstrip (get_comment_of fh) = get_comment_of fh) as Hl.
  { unfold get_comment_of. rewrite get_comment_loop. cbn [app].
    apply lstrip_by_fixed_rstrip, lstrip_by_fixed_join.
    apply Forall_map, Forall_forall. intros l _. apply lstrip_by_idem. }
  assert (str_rstrip (get_comment_of fh) = get_comment_of fh) as Hr.
  { apply rstrip_by_idem. }
  split; [exact Hl|]. split; [exact Hr|]. unfold str_strip. now rewrite Hl.
Qed.

(** X2.  Every line [get_content] returns is itself a content line and
    does not end in a carriage return or line feed.  Hence, on any text
    stream that yields exactly the returned lines, each followed by a line
    feed, [get_content] without a limit returns them unchanged. *)
Theorem get_content_lines_clean file n w fh :
  opens_to_lines file w fh ->
  exists out,
    fst (get_content file n (w, [])) = Ok out
    /\ Forall (fun l => is_content_line l = true /\ chomp l = l) out
    /\ (forall file' w',
          opens_to_lines file' w' (map ln out) ->
          fst (get_content file' 0 (w', [])) = Ok out).
Proof.
  intros H. exists (get_content_of fh n). split; [now apply get_content_run|].
  destruct (get_content_of_take fh n) as [k ->].
  assert (Forall (fun l => is_content_line l = true /\ chomp l = l)
            (take k (content_of fh))) as Hc.
  { apply Forall_take, content_of_clean. }
  split; [exact Hc|]. intros file' w' H'.
  rewrite (get_content_run _ _ _ _ H'), get_content_of_unbounded.
  f_equal. now apply content_of_fixed.
Qed.

(** X3.  [get_content] returns nothing from the leading block that
    [get_comment] reads: its result is the content of the lines after the
    block, and its first element is the line right after the block, the
    one on which [get_comment] stops. *)
Theorem get_content_skips_header file w fh :
  opens_to_lines file w fh ->
  fst (get_content file 0 (w, []))
  = Ok (get_content_of (drop (List.length (comment_block fh)) fh) 0)
  /\ (forall stop rest,
        drop (List.length (comment_block fh)) fh = stop :: rest ->
        get_comment_body stop [] = Break []
        /\ fst (get_content file 0 (w, []))
           = Ok (str_rstrip_chars (String CR (String LF "")) stop
                 :: get_content_of rest 0)).
Proof.
  intros H. rewrite (get_content_run _ _ _ _ H), !get_content_of_unbounded.
  assert (content_of fh
          = content_of (drop (List.length (comment_block fh)) fh)) as Heq.
  { rewrite (comment_block_split fh) at 1.
    now rewrite content_of_app, content_of_block. }
  split; [now rewrite Heq|].
  intros stop rest Hd.
  pose proof (after_block_is_content _ _ _ Hd) as Hs.
  rewrite content_class in Hs. apply negb_true_iff, orb_false_elim in Hs as [Hb Hc].
  split; [now apply get_comment_body_stop|].
  rewrite Heq, Hd, content_of_cons, content_class, Hb, Hc.
  now rewrite get_content_of_unbounded.
Qed.

(** X4.  A smaller positive limit returns an initial part of what a
    larger one returns, and a limit that is at least the number of content
    lines returns what no limit returns. *)
Theorem get_content_limit_prefix file m n w fh :
  0 < m -> m <= n ->
  opens_to_lines file w fh ->
  exists small big full,
    fst (get_content file m (w, [])) = Ok small
    /\ fst (get_content file n (w, [])) = Ok big
    /\ fst (get_content file 0 (w, [])) = Ok full
    /\ small = take (Z.to_nat m) big
    /\ (py_len full <= n -> big = full).
Proof.
  intros Hm Hmn H.
  exists (get_content_of fh m), (get_content_of fh n), (get_content_of fh 0).
  rewrite !(get_content_run _ _ _ _ H).
  repeat (split; [reflexivity|]).
  rewrite !get_content_of_positive, get_content_of_unbounded by lia. split.
  - rewrite take_take. f_equal. lia.
  - intros Hk. apply take_ge. unfold py_len in Hk. lia.
Qed.

(** X5.  Without a limit the content of a file made of two parts is the
    content of the first part followed by the content of the second; with
    a positive limit it is cut to the limit. *)
Theorem get_content_concat file n w a b :
  opens_to_lines file w (a ++ b) ->
  fst (get_content file 0 (w, []))
  = Ok (get_content_of a 0 ++ get_content_of b 0)
  /\ (0 < n ->
      fst (get_content file n (w, []))
      = Ok (take (Z.to_nat n) (get_content_of a 0 ++ get_content_of b 0))).
Proof.
  intros H. rewrite !(get_content_run _ _ _ _ H), !get_content_of_unbounded.
  rewrite content_of_app. split; [reflexivity|].
  intros Hn. now rewrite get_content_of_positive, content_of_app by exact Hn.
Qed.

(** X6.  [get_comment] takes from the stream the lines of the leading
    block and the line that ends it: the stream is left one line past the
    block, or at its end when the block is the whole file.  The connector
    is then closed. *)
Theorem get_comment_fetches file w cman w1 fh w2 ls :
  FileConnector file w = (Ok cman, w1) ->
  cman_open cman "rt" w1 = (Ok fh, w2) ->
  is_TextIOBase fh = true ->
  fh_lines fh w2 = Ok ls ->
  get_comment file (w, [])
  = (Ok (get_comment_of ls),
     (cman_close cman
        (fh_advance fh
           (Nat.min (List.length ls) (S (List.length (comment_block ls)))) w2),
      [CallOpen cman "rt"; Yield fh; CallClose cman])).
Proof.
  intros H1 H2 H3 H4. unfold get_comment, bind.
  rewrite (scan_run _ _ _ _ _ _ _ _ H1 H2 H3), H4.
  unfold ret, get_comment_of. now rewrite get_comment_count.
Qed.

(** X7.  How far [get_content] reads.  Without a limit, or when the file
    has fewer content lines than the limit, every line is taken from the
    stream.  When the limit is reached and a line follows, that line is
    taken from the stream too and dropped.  With a negative limit one
    line is taken and dropped. *)
Theorem get_content_fetches file n w cman w1 fh w2 ls :
  FileConnector file w = (Ok cman, w1) ->
  cman_open cman "rt" w1 = (Ok fh, w2) ->
  is_TextIOBase fh = true ->
  fh_lines fh w2 = Ok ls ->
  exists k,
    get_content file n (w, [])
    = (Ok (get_content_of ls n),
       (cman_close cman (fh_advance fh k w2),
        [CallOpen cman "rt"; Yield fh; CallClose cman]))
    /\ (n = 0 \/ py_len (content_of ls) < n -> k = List.length ls)
    /\ (forall init last extra post,
          0 < n -> ls = init ++ last :: extra :: post ->
          is_content_line last = true ->
          py_len (content_of (init ++ [last])) = n ->
          k = (List.length init + 2)%nat)
    /\ (n < 0 -> ls <> [] -> k = 1%nat).
Proof.
  intros H1 H2 H3 H4.
  exists (snd (for_each (get_content_body n) ls [])). split.
  - unfold get_content. now rewrite (scan_run _ _ _ _ _ _ _ _ H1 H2 H3), H4.
  - split; [apply get_content_count_all|]. split.
    + intros init last extra post Hn -> Hs Hlen.
      now apply get_content_count_limit.
    + intros Hn Hne. destruct ls as [|line rest]; [congruence|].
      now apply get_content_count_negative.
Qed.

(** X8.  When fetching the first line from the opened stream raises (the
    stream is closed, or is not open for reading), [get_comment] and
    [get_content] raise the same error, after the connector has been
    closed once; the stream is as [open] left it. *)
Theorem scan_first_fetch_error file n w cman w1 fh w2 e :
  FileConnector file w = (Ok cman, w1) ->
  cman_open cman "rt" w1 = (Ok fh, w2) ->
  is_TextIOBase fh = true ->
  fh_lines fh w2 = Raise e ->
  get_comment file (w, [])
  = (Raise e,
     (cman_close cman w2, [CallOpen cman "rt"; Yield fh; CallClose cman]))
  /\ get_content file n (w, [])
     = (Raise e,
        (cman_close cman w2, [CallOpen cman "rt"; Yield fh; CallClose cman])).
Proof.
  intros H1 H2 H3 H4. unfold get_comment, get_content, bind.
  now rewrite !(scan_run _ _ _ _ _ _ _ _ H1 H2 H3), H4.
Qed.

Lemma openx_ok {A} file mode (body : Handle -> M World A) w v :
  fst (openx file mode body (w, [])) = Ok v ->
  closes (snd (snd (openx file mode body (w, [])))) = 1%nat
  /\ opened_modes (snd (snd (openx file mode body (w, [])))) = [text_mode mode].
Proof.
  rewrite openx_run.
  destruct (FileConnector file w) as [[cman|e] w1]; [|discriminate].
  destruct (cman_open cman (text_mode mode) w1) as [[fh|e] w2]; [|discriminate].
  destruct (is_TextIOBase fh); [|discriminate]. now split.
Qed.

(** X9.  Whenever [load], [save], [get_comment] or [get_content] returns
    a value, the connector has been opened once, in mode ["rt"] (["wt"]
    for [save]), and closed exactly once. *)
Theorem helpers_close_on_success file text n w :
  (forall v, fst (load file (w, [])) = Ok v ->
     closes (snd (snd (load file (w, [])))) = 1%nat
     /\ opened_modes (snd (snd (load file (w, [])))) = ["rt"])
  /\ (forall v, fst (save text file (w, [])) = Ok v ->
        closes (snd (snd (save text file (w, [])))) = 1%nat
        /\ opened_modes (snd (snd (save text file (w, [])))) = ["wt"])
  /\ (forall v, fst (get_comment file (w, [])) = Ok v ->
        closes (snd (snd (get_comment file (w, [])))) = 1%nat
        /\ opened_modes (snd (snd (get_comment file (w, [])))) = ["rt"])
  /\ (forall v, fst (get_content file n (w, [])) = Ok v ->
        closes (snd (snd (get_content file n (w, [])))) = 1%nat
        /\ opened_modes (snd (snd (get_content file n (w, [])))) = ["rt"]).
Proof.
  split; [intros v; apply openx_ok|].
  split; [intros v; apply openx_ok|].
  split; [|intros v; apply openx_ok].
  intros v. unfold get_comment, bind.
  destruct (openx file "r" (fun fh => for_lines fh get_comment_body []) (w, []))
    as [[lines|e] s] eqn:E; [|discriminate].
  intros _. cbn [ret snd].
  pose proof (openx_ok file "r" (fun fh => for_lines fh get_comment_body [])
                w lines) as Hok.
  rewrite E in Hok. now apply Hok.
Qed.

(** X10.  Putting the text-mode marker on a mode is idempotent, and
    [openx] behaves the same whether or not the caller has put it on: the
    default mode ['rt'] and the mode ['r'] are interchangeable. *)
Theorem openx_mode_normalised {A} file mode (body : Handle -> M World A) s :
  text_mode (text_mode mode) = text_mode mode
  /\ openx file (text_mode mode) body s = openx file mode body s
  /\ openx file "rt" body s = openx file "r" body s.
Proof.
  assert (text_mode (text_mode mode) = text_mode mode) as Hi.
  { unfold text_mode at 1. now rewrite text_mode_has_t. }
  split; [exact Hi|]. split; [|reflexivity].
  unfold openx. now rewrite Hi.
Qed.

End ScannerFacts.

(** X11.  The first character of a line that is not whitespace decides
    its class, and both scanners use the same classes.  A blank line is
    passed over by both.  A line starting with ['#'] goes to the header and
    is left out of the content.  Any other line ends the header and is a
    content line, whatever it holds further on. *)
Theorem line_classes ws c rest acc content :
  is_blank ws = true ->
  py_isspace c = false ->
  (get_comment_body ws acc = Continue acc
   /\ get_content_body 0 ws content = Continue content)
  /\ (c = HASH ->
      get_comment_body (ws +:+ String c rest) acc
      = Continue (acc ++ [str_lstrip rest])
      /\ get_content_body 0 (ws +:+ String c rest) content = Continue content)
  /\ (c <> HASH ->
      get_comment_body (ws +:+ String c rest) acc = Break acc
      /\ get_content_body 0 (ws +:+ String c rest) content
         = Continue
             (content
              ++ [str_rstrip_chars (String CR (String LF ""))
                    (ws +:+ String c rest)])).
Proof.
  intros Hws Hc.
  assert (is_blank (ws +:+ String c rest) = false) as Hb.
  { unfold is_blank. rewrite all_chars_app. simpl. rewrite Hc.
    apply andb_false_r. }
  assert (is_comment_line (ws +:+ String c rest) = Ascii.eqb c HASH) as Hcl.
  { unfold is_comment_line, str_lstrip. rewrite lstrip_by_app by exact Hws.
    simpl. now rewrite Hc. }
  assert (comment_text (ws +:+ String c rest) = str_lstrip rest) as Ht.
  { unfold comment_text, str_lstrip. rewrite lstrip_by_app by exact Hws.
    simpl. now rewrite Hc. }
  split; [|split].
  - split; [now apply get_comment_body_blank|].
    apply get_content_body_skip; [now left|].
    now rewrite content_class, Hws.
  - intros ->. split.
    + rewrite get_comment_body_comment, Ht; auto.
    + apply get_content_body_skip; [now left|].
      now rewrite content_class, Hb, Hcl.
  - intros Hne. assert (Ascii.eqb c HASH = false) as Hf.
    { now apply Ascii.eqb_neq. }
    split.
    + apply get_comment_body_stop; [exact Hb|now rewrite Hcl].
    + apply get_content_body_take; [now left|].
      now rewrite content_class, Hb, Hcl, Hf.
Qed.

(** ** The further properties on concrete files *)

Lemma get_comment_stripped_witness :
  opens_to_lines (RefPath "README") demo_world
    [ln "# Title"; ln "# desc"; ln ""; ln "# more"; ln "data"]
  /\ exists out,
       fst (get_comment (RefPath "README") (demo_world, [])) = Ok out
       /\ str_lstrip out = out /\ str_rstrip out = out /\ str_strip out = out.
Proof.
  split; [exact demo_opens_readme|].
  exact (get_comment_stripped (IO:=disk_io) _ _ _ demo_opens_readme).
Defined.

Lemma get_content_lines_clean_witness :
  let saved :=
    fst (snd (save (ln "a,1" +:+ ln "b,2") (RefPath "out.txt")
                (demo_world, []))) in
  opens_to_lines (RefPath "data.csv") demo_world
    [ln "# h"; ln ""; ln "a,1"; ln "# mid"; ln "b,2"]
  /\ opens_to_lines (RefPath "out.txt") saved (map ln ["a,1"; "b,2"])
  /\ fst (get_content (RefPath "data.csv") 0 (demo_world, []))
     = Ok ["a,1"; "b,2"]
  /\ Forall (fun l => is_content_line l = true /\ chomp l = l) ["a,1"; "b,2"]
  /\ fst (get_content (RefPath "out.txt") 0 (saved, [])) = Ok ["a,1"; "b,2"].
Proof.
  intros saved.
  assert (opens_to_lines (RefPath "out.txt") saved (map ln ["a,1"; "b,2"]))
    as Hsaved.
  { unfold opens_to_lines. eexists _, _, _, _.
    split; [reflexivity|]. split; [vm_compute; reflexivity|].
    split; [reflexivity|]. vm_compute. reflexivity. }
  split; [exact demo_opens_data|]. split; [exact Hsaved|].
  destruct (get_content_lines_clean (IO:=disk_io) (RefPath "data.csv") 0
              demo_world _ demo_opens_data) as (out & Hrun & Hclean & Hback).
  assert (out = ["a,1"; "b,2"]) as ->.
  { assert (fst (get_content (RefPath "data.csv") 0 (demo_world, []))
            = Ok ["a,1"; "b,2"]) as E by (vm_compute; reflexivity).
    assert (Ok out = Ok ["a,1"; "b,2"]) as Heq
      by exact (eq_trans (eq_sym Hrun) E).
    now injection Heq. }
  split; [exact Hrun|]. split; [exact Hclean|].
  exact (Hback (RefPath "out.txt") saved Hsaved).
Defined.

Lemma get_content_skips_header_witness :
  opens_to_lines (RefPath "data.csv") demo_world
    [ln "# h"; ln ""; ln "a,1"; ln "# mid"; ln "b,2"]
  /\ drop (List.length
             (comment_block [ln "# h"; ln ""; ln "a,1"; ln "# mid"; ln "b,2"]))
       [ln "# h"; ln ""; ln "a,1"; ln "# mid"; ln "b,2"]
     = ln "a,1" :: [ln "# mid"; ln "b,2"]
  /\ get_comment_body (ln "a,1") [] = Break []
  /\ fst (get_content (RefPath "data.csv") 0 (demo_world, []))
     = Ok ("a,1" :: get_content_of [ln "# mid"; ln "b,2"] 0).
Proof.
  split; [exact demo_opens_data|]. split; [reflexivity|].
  destruct (get_content_skips_header (IO:=disk_io) _ _ _ demo_opens_data)
    as [_ Hstop].
  exact (Hstop (ln "a,1") [ln "# mid"; ln "b,2"] eq_refl).
Defined.

Lemma get_content_limit_prefix_witness :
  0 < 1 /\ 1 <= 2
  /\ opens_to_lines (RefPath "data.csv") demo_world
       [ln "# h"; ln ""; ln "a,1"; ln "# mid"; ln "b,2"]
  /\ exists small big full,
       fst (get_content (RefPath "data.csv") 1 (demo_world, [])) = Ok small
       /\ fst (get_content (RefPath "data.csv") 2 (demo_world, [])) = Ok big
       /\ fst (get_content (RefPath "data.csv") 0 (demo_world, [])) = Ok full
       /\ small = take (Z.to_nat 1) big
       /\ (py_len full <= 2 -> big = full).
Proof.
  split; [reflexivity|]. split; [discriminate|].
  split; [exact demo_opens_data|].
  apply (get_content_limit_prefix (IO:=disk_io) (RefPath "data.csv") 1 2
           demo_world [ln "# h"; ln ""; ln "a,1"; ln "# mid"; ln "b,2"]);
    [reflexivity | discriminate | exact demo_opens_data].
Defined.

Lemma get_content_concat_witness :
  opens_to_lines (RefPath "data.csv") demo_world
    ([ln "# h"; ln ""; ln "a,1"] ++ [ln "# mid"; ln "b,2"])
  /\ 0 < 1
  /\ fst (get_content (RefPath "data.csv") 0 (demo_world, []))
     = Ok (get_content_of [ln "# h"; ln ""; ln "a,1"] 0
           ++ get_content_of [ln "# mid"; ln "b,2"] 0)
  /\ fst (get_content (RefPath "data.csv") 1 (demo_world, []))
     = Ok (take (Z.to_nat 1)
             (get_content_of [ln "# h"; ln ""; ln "a,1"] 0
              ++ get_content_of [ln "# mid"; ln "b,2"] 0)).
Proof.
  split; [exact demo_opens_data|]. split; [reflexivity|].
  destruct (get_content_concat (IO:=disk_io) (RefPath "data.csv") 1 demo_world
              [ln "# h"; ln ""; ln "a,1"] [ln "# mid"; ln "b,2"]
              demo_opens_data) as [H0 H1].
  split; [exact H0|]. apply H1. reflexivity.
Defined.

Lemma get_comment_fetches_witness :
  exists cman w1 fh w2,
    FileConnector (RefPath "README") demo_world = (Ok cman, w1)
    /\ cman_open cman "rt" w1 = (Ok fh, w2)
    /\ is_TextIOBase fh = true
    /\ fh_lines fh w2
       = Ok [ln "# Title"; ln "# desc"; ln ""; ln "# more"; ln "data"]
    /\ get_comment (RefPath "README") (demo_world, [])
       = (Ok (ln "Title" +:+ ln "desc" +:+ "more"),
          (cman_close cman (fh_advance fh 5 w2),
           [CallOpen cman "rt"; Yield fh; CallClose cman])).
Proof.
  destruct demo_opens_readme as (cman & w1 & fh & w2 & H1 & H2 & H3 & H4).
  exists cman, w1, fh, w2. repeat (split; [assumption|]).
  exact (get_comment_fetches (IO:=disk_io) _ _ _ _ _ _ _ H1 H2 H3 H4).
Defined.

Lemma get_content_fetches_witness :
  exists cman w1 fh w2,
    FileConnector (RefPath "data.csv") demo_world = (Ok cman, w1)
    /\ cman_open cman "rt" w1 = (Ok fh, w2)
    /\ is_TextIOBase fh = true
    /\ fh_lines fh w2
       = Ok ([ln "# h"; ln ""] ++ ln "a,1" :: ln "# mid" :: [ln "b,2"])
    /\ 0 < 1
    /\ is_content_line (ln "a,1") = true
    /\ py_len (content_of ([ln "# h"; ln ""] ++ [ln "a,1"])) = 1
    /\ exists k,
         get_content (RefPath "data.csv") 1 (demo_world, [])
         = (Ok ["a,1"],
            (cman_close cman (fh_advance fh k w2),
             [CallOpen cman "rt"; Yield fh; CallClose cman]))
         /\ k = 4%nat.
Proof.
  destruct demo_opens_data as (cman & w1 & fh & w2 & H1 & H2 & H3 & H4).
  exists cman, w1, fh, w2. repeat (split; [assumption || reflexivity|]).
  destruct (get_content_fetches (IO:=disk_io) _ 1 _ _ _ _ _ _ H1 H2 H3 H4)
    as (k & Hrun & _ & Hlimit & _).
  exists k. split; [exact Hrun|].
  exact (Hlimit [ln "# h"; ln ""] (ln "a,1") (ln "# mid") [ln "b,2"]
           eq_refl eq_refl eq_refl eq_refl).
Defined.

Lemma scan_first_fetch_error_witness :
  let file := RefStream {| h_addr := 7; h_class := TextIO |} in
  exists cman w1 fh w2 e,
    FileConnector file demo_world = (Ok cman, w1)
    /\ cman_open cman "rt" w1 = (Ok fh, w2)
    /\ is_TextIOBase fh = true
    /\ fh_lines fh w2 = Raise e
    /\ fst (get_comment file (demo_world, [])) = Raise e
    /\ fst (get_content file 0 (demo_world, [])) = Raise e
    /\ closes (snd (snd (get_content file 0 (demo_world, [])))) = 1%nat.
Proof.
  intros file.
  eexists _, _, _, _, _.
  split; [reflexivity|]. split; [reflexivity|]. split; [reflexivity|].
  split; [vm_compute; reflexivity|].
  destruct (scan_first_fetch_error (IO:=disk_io) file 0 demo_world _ _ _ _
              (ValueError "I/O operation on closed file")
              eq_refl eq_refl eq_refl eq_refl) as [Hc Hg].
  split; [exact (f_equal fst Hc)|]. split; [exact (f_equal fst Hg)|].
  exact (f_equal (fun r => closes (snd (snd r))) Hg).
Defined.

Lemma helpers_close_on_success_witness :
  fst (load (RefPath "README") (demo_world, []))
  = Ok (ln "# Title" +:+ ln "# desc" +:+ ln "" +:+ ln "# more" +:+ ln "data")
  /\ closes (snd (snd (load (RefPath "README") (demo_world, [])))) = 1%nat
  /\ fst (save "x" (RefPath "out.txt") (demo_world, [])) = Ok tt
  /\ opened_modes (snd (snd (save "x" (RefPath "out.txt") (demo_world, []))))
     = ["wt"]
  /\ fst (get_comment (RefPath "README") (demo_world, []))
     = Ok (ln "Title" +:+ ln "desc" +:+ "more")
  /\ closes (snd (snd (get_comment (RefPath "README") (demo_world, []))))
     = 1%nat
  /\ fst (get_content (RefPath "README") 0 (demo_world, [])) = Ok ["data"]
  /\ closes (snd (snd (get_content (RefPath "README") 0 (demo_world, []))))
     = 1%nat.
Proof.
  destruct (helpers_close_on_success (IO:=disk_io) (RefPath "README") "x" 0
              demo_world) as (Hload & _ & Hcomment & Hcontent).
  destruct (helpers_close_on_success (IO:=disk_io) (RefPath "out.txt") "x" 0
              demo_world) as (_ & Hsave & _).
  assert (fst (load (RefPath "README") (demo_world, []))
          = Ok (ln "# Title" +:+ ln "# desc" +:+ ln "" +:+ ln "# more"
                +:+ ln "data")) as E1 by (vm_compute; reflexivity).
  assert (fst (save "x" (RefPath "out.txt") (demo_world, [])) = Ok tt)
    as E2 by (vm_compute; reflexivity).
  assert (fst (get_comment (RefPath "README") (demo_world, []))
          = Ok (ln "Title" +:+ ln "desc" +:+ "more"))
    as E3 by (vm_compute; reflexivity).
  assert (fst (get_content (RefPath "README") 0 (demo_world, []))
          = Ok ["data"]) as E4 by (vm_compute; reflexivity).
  split; [exact E1|]. split; [exact (proj1 (Hload _ E1))|].
  split; [exact E2|]. split; [exact (proj2 (Hsave _ E2))|].
  split; [exact E3|]. split; [exact (proj1 (Hcomment _ E3))|].
  split; [exact E4|]. exact (proj1 (Hcontent _ E4)).
Defined.

Lemma line_classes_witness :
  is_blank "  " = true
  /\ py_isspace "a" = false
  /\ py_isspace HASH = false
  /\ get_comment_body (ln "  # note") [] = Continue [ln "note"]
  /\ get_content_body 0 (ln "  # note") [] = Continue []
  /\ get_comment_body (ln "  a,1 # note") ["x"] = Break ["x"]
  /\ get_content_body 0 (ln "  a,1 # note") [] = Continue ["  a,1 # note"].
Proof.
  split; [reflexivity|]. split; [reflexivity|]. split; [reflexivity|].
  destruct (line_classes "  " HASH (ln " note") [] [] eq_refl eq_refl)
    as (_ & Hhash & _).
  destruct (line_classes "  " "a" (ln ",1 # note") ["x"] [] eq_refl eq_refl)
    as (_ & _ & Hother).
  destruct (Hhash eq_refl) as [H1 H2].
  assert ("a"%char <> HASH) as Hne by discriminate.
  destruct (Hother Hne) as [H3 H4].
  split; [exact H1|]. split; [exact H2|]. split; [exact H3|]. exact H4.
Defined.
